(** * bump::NotificationCenter: registry and dispatch of notification observers

    A shallow embedding of [include/bump/NotificationCenter.h] and
    [src/bump/NotificationCenter.cpp].  The C++ program mutates a process-wide
    singleton, calls owner-supplied callbacks and throws exceptions, so every
    method is a computation over an explicit machine state that may end in a
    thrown exception (a state-and-exception monad, where the state reached
    so far survives a throw, as it does in C++).

    Modelling conventions:
    - [std::vector<Observer*>] is a [list Observer]; each element stands for
      one distinct heap-allocated observer object owned by the center;
    - [void*] owner pointers are addresses ([Z]), compared with [==];
    - [unsigned int] is a [Z] reduced modulo [2^32] where the code computes;
    - [boost::any] is a runtime type tag with the held object;
    - owner callbacks act on an abstract [World], may throw, and do not
      re-enter the notification center (they have no access to it);
    - the formatting helpers of [bump::String] ([arg], [join]) live in
      [bump/String.h], which is not part of the sources at hand: they are
      taken as an interface; [bump::NotificationError]
      ([bump/NotificationError.h]) is an exception that carries its
      message. *)

From Stdlib Require Import List String Ascii ZArith Lia Bool.
From Stdlib Require Import DecimalString.
Import ListNotations.

#[local] Open Scope string_scope.
#[local] Open Scope list_scope.

(** ** Collaborators *)

(** [bump::String]'s formatting members used by the notification center. *)
Class StringOps : Type := {
  (** [String(fmt).arg(a)] *)
  arg : string -> string -> string;
  (** [String(fmt).arg(n, s)] with an [unsigned int] and a string *)
  arg2 : string -> Z -> string -> string;
  (** [String::join(list, separator)] *)
  join : list string -> string -> string
}.

(** [void*] *)
Definition pointer : Type := Z.

(** [std::type_info] of the value held by a [boost::any]. *)
Inductive type_info : Type :=
| typeid (class_id : nat)
| pointer_to (pointee : type_info).

Fixpoint type_info_eqb (a b : type_info) : bool :=
  match a, b with
  | typeid x, typeid y => Nat.eqb x y
  | pointer_to x, pointer_to y => type_info_eqb x y
  | _, _ => false
  end.

(** [boost::any]: the dynamic type of the content and the content. *)
Record any : Type := { any_type : type_info; any_content : Z }.

(** What the modelled code can throw.  [NotificationError] carries its
    message; [BUMP_LOCATION] is dropped. *)
Inductive exception : Type :=
| bad_any_cast
| bad_function_call
| NotificationError (msg : string)
| user_exception (what : string).

Inductive outcome (A : Type) : Type :=
| Return (a : A)
| Throw (e : exception).
Arguments Return {A} a.
Arguments Throw {A} e.

(** [unsigned int] arithmetic. *)
Definition UINT_MODULUS : Z := 2 ^ 32.

Definition uint (n : Z) : Z := (n mod UINT_MODULUS)%Z.

(** [std::vector::empty] and [std::vector::size]. *)
Definition empty {A : Type} (v : list A) : bool :=
  match v with
  | [] => true
  | _ :: _ => false
  end.

Definition size {A : Type} (v : list A) : Z := Z.of_nat (List.length v).

(** The double quote character, for the message formats. *)
Definition dquote : string := String (ascii_of_nat 34) EmptyString.

Section Bump.

Context {World : Type} {string_ops : StringOps}.

(** A bound member function: it runs on the owner's world and may throw. *)
Definition callback : Type := World -> World * option exception.

(** ** Observer hierarchy *)

Inductive ObserverType : Type := KEY_OBSERVER | OBJECT_OBSERVER.

(** The dynamic class of an observer with the members the subclass adds.
    An empty [boost::function] is [None]. *)
Inductive ObserverClass : Type :=
| IsKeyObserver (_functionPointer : callback)
| IsObjectObserver (T2 : type_info)
    (_functionPointerWithObject : option (Z -> callback))
    (_functionPointerWithPointer : option (Z -> callback)).

Record Observer : Type := {
  _observer : pointer;
  _notificationName : string;
  _observerType : ObserverType;
  dynamic_class : ObserverClass
}.

(** [KeyObserver<T>::KeyObserver(observer, functionPointer, notificationName)] *)
Definition KeyObserver (observer : pointer) (functionPointer : callback)
    (notificationName : string) : Observer :=
  {| _observer := observer;
     _notificationName := notificationName;
     _observerType := KEY_OBSERVER;
     dynamic_class := IsKeyObserver functionPointer |}.

(** [ObjectObserver<T1,T2>::ObjectObserver(T1*, void (T1::* )(T2), name)] *)
Definition ObjectObserver_value (observer : pointer) (T2 : type_info)
    (functionPointer : Z -> callback) (notificationName : string) : Observer :=
  {| _observer := observer;
     _notificationName := notificationName;
     _observerType := OBJECT_OBSERVER;
     dynamic_class := IsObjectObserver T2 (Some functionPointer) None |}.

(** [ObjectObserver(T1*, void (T1::* )(const T2&), name)] *)
Definition ObjectObserver_const_reference (observer : pointer) (T2 : type_info)
    (functionPointer : Z -> callback) (notificationName : string) : Observer :=
  {| _observer := observer;
     _notificationName := notificationName;
     _observerType := OBJECT_OBSERVER;
     dynamic_class := IsObjectObserver T2 (Some functionPointer) None |}.

(** [ObjectObserver(T1*, void (T1::* )(T2* ), name)] *)
Definition ObjectObserver_pointer (observer : pointer) (T2 : type_info)
    (functionPointer : Z -> callback) (notificationName : string) : Observer :=
  {| _observer := observer;
     _notificationName := notificationName;
     _observerType := OBJECT_OBSERVER;
     dynamic_class := IsObjectObserver T2 None (Some functionPointer) |}.

(** [ObjectObserver(T1*, void (T1::* )(const T2* ), name)] *)
Definition ObjectObserver_const_pointer (observer : pointer) (T2 : type_info)
    (functionPointer : Z -> callback) (notificationName : string) : Observer :=
  {| _observer := observer;
     _notificationName := notificationName;
     _observerType := OBJECT_OBSERVER;
     dynamic_class := IsObjectObserver T2 None (Some functionPointer) |}.

(** ** Machine state and the method monad *)

Record NotificationCenter : Type := {
  _keyObservers : list Observer;
  _objectObservers : list Observer
}.

(** What the program does that a caller can observe besides the world:
    a virtual [notify] was entered, a bound function pointer was called
    (with its argument, if it takes one), an observer was deleted. *)
Inductive event : Type :=
| Notified (o : Observer)
| Called (o : Observer) (argument : option Z)
| Deleted (o : Observer).

Record Machine : Type := {
  center : NotificationCenter;
  world : World;
  trace : list event
}.

Definition M (A : Type) : Type := Machine -> Machine * outcome A.

Definition ret {A : Type} (a : A) : M A := fun m => (m, Return a).

Definition throw {A : Type} (e : exception) : M A := fun m => (m, Throw e).

Definition bind {A B : Type} (c : M A) (k : A -> M B) : M B :=
  fun m =>
    match c m with
    | (m', Return a) => k a m'
    | (m', Throw e) => (m', Throw e)
    end.

Notation "x <- c1 ;; c2" := (bind c1 (fun x => c2))
  (at level 61, c1 at next level, right associativity).
Notation "c1 ;; c2" := (bind c1 (fun _ => c2))
  (at level 61, right associativity).

(** [try { body } catch (const boost::bad_any_cast&) { handler }] *)
Definition try_catch_bad_any_cast {A : Type} (body handler : M A) : M A :=
  fun m =>
    match body m with
    | (m', Throw bad_any_cast) => handler m'
    | r => r
    end.

Definition log (e : event) : M unit :=
  fun m =>
    ({| center := center m; world := world m; trace := trace m ++ [e] |},
     Return tt).

(** Running a bound function on the world. *)
Definition run (f : callback) : M unit :=
  fun m =>
    let (w, thrown) := f (world m) in
    ({| center := center m; world := w; trace := trace m |},
     match thrown with
     | None => Return tt
     | Some e => Throw e
     end).

(** [boost::function::operator()]: an empty function throws
    [boost::bad_function_call]. *)
Definition call_function (this : Observer) (f : option (Z -> callback))
    (argument : Z) : M unit :=
  match f with
  | Some g => log (Called this (Some argument)) ;; run (g argument)
  | None => throw bad_function_call
  end.

(** [boost::any_cast<T>(object)] *)
Definition any_cast (T : type_info) (object : any) : M Z :=
  if type_info_eqb (any_type object) T
  then ret (any_content object)
  else throw bad_any_cast.

(** [BOOST_FOREACH(x, container) body], with the local variables the body
    updates passed along. *)
Fixpoint BOOST_FOREACH {A L : Type} (container : list A)
    (body : A -> L -> M L) (locals : L) : M L :=
  match container with
  | [] => ret locals
  | x :: rest => locals' <- body x locals ;; BOOST_FOREACH rest body locals'
  end.

(** ** Observer methods *)

Definition notificationName (this : Observer) : string :=
  _notificationName this.

Definition observerType (this : Observer) : ObserverType :=
  _observerType this.

(** [Observer::containsObserver]: [observer == _observer]. *)
Definition Observer_containsObserver (this : Observer) (observer : pointer)
    : bool :=
  Z.eqb observer (_observer this).

(** [virtual void notify()]: [KeyObserver] calls its function pointer, the
    base class does nothing. *)
Definition notify (this : Observer) : M unit :=
  log (Notified this) ;;
  match dynamic_class this with
  | IsKeyObserver _functionPointer =>
      log (Called this None) ;; run _functionPointer
  | IsObjectObserver _ _ _ => ret tt
  end.

Definition invalid_type_format : string :=
  ("Notification object for " ++ dquote ++ "%1" ++ dquote
     ++ " has invalid type for bound callback.")%string.

(** [virtual void notify(const boost::any& object)]: [ObjectObserver]
    casts the object and calls the function pointer that is set, turning a
    [bad_any_cast] into a [NotificationError]; the base class does nothing. *)
Definition notify_object (this : Observer) (object : any) : M unit :=
  log (Notified this) ;;
  match dynamic_class this with
  | IsKeyObserver _ => ret tt
  | IsObjectObserver T2 _functionPointerWithObject _functionPointerWithPointer =>
      try_catch_bad_any_cast
        (match _functionPointerWithObject with
         | Some _ =>
             castObject <- any_cast T2 object ;;
             call_function this _functionPointerWithObject castObject
         | None =>
             castObject <- any_cast (pointer_to T2) object ;;
             call_function this _functionPointerWithPointer castObject
         end)
        (throw (NotificationError
                  (arg invalid_type_format (_notificationName this))))
  end.

(** [delete abs_observer]: the destructors are empty. *)
Definition delete (o : Observer) : M unit := log (Deleted o).

(** ** NotificationCenter methods *)

Definition set_center (c : NotificationCenter) : M unit :=
  fun m => ({| center := c; world := world m; trace := trace m |}, Return tt).

Definition get_center : M NotificationCenter :=
  fun m => (m, Return (center m)).

Definition addObserver (observer : Observer) : M unit :=
  this <- get_center ;;
  match observerType observer with
  | KEY_OBSERVER =>
      set_center {| _keyObservers := _keyObservers this ++ [observer];
                    _objectObservers := _objectObservers this |}
  | OBJECT_OBSERVER =>
      set_center {| _keyObservers := _keyObservers this;
                    _objectObservers := _objectObservers this ++ [observer] |}
  end.

(** One loop of [containsObserver]: [return true] at the first match. *)
Fixpoint contains_loop (observers : list Observer) (observer : pointer)
    : bool :=
  match observers with
  | [] => false
  | abs_observer :: rest =>
      if Observer_containsObserver abs_observer observer
      then true
      else contains_loop rest observer
  end.

Definition containsObserver (observer : pointer) : M bool :=
  this <- get_center ;;
  if contains_loop (_keyObservers this) observer then ret true
  else if contains_loop (_objectObservers this) observer then ret true
  else ret false.

Definition postNotification (name : string) : M Z :=
  this <- get_center ;;
  BOOST_FOREACH (_keyObservers this)
    (fun abs_observer notification_count =>
       if String.eqb (notificationName abs_observer) name
       then notify abs_observer ;; ret (uint (notification_count + 1))
       else ret notification_count)
    0%Z.

Definition postNotificationWithObject (name : string) (object : any) : M Z :=
  this <- get_center ;;
  BOOST_FOREACH (_objectObservers this)
    (fun abs_observer notification_count =>
       if String.eqb (notificationName abs_observer) name
       then notify_object abs_observer object ;;
            ret (uint (notification_count + 1))
       else ret notification_count)
    0%Z.

(** The loop body of [removeObserver]; [to_keep] is the local vector. *)
Definition remove_body (observer : pointer) (abs_observer : Observer)
    (to_keep : list Observer) : M (list Observer) :=
  if Observer_containsObserver abs_observer observer
  then delete abs_observer ;; ret to_keep
  else ret (to_keep ++ [abs_observer]).

Definition removeObserver (observer : pointer) : M unit :=
  this <- get_center ;;
  key_observers_to_keep <-
    BOOST_FOREACH (_keyObservers this) (remove_body observer) [] ;;
  set_center {| _keyObservers := key_observers_to_keep;
                _objectObservers := _objectObservers this |} ;;
  this <- get_center ;;
  object_observers_to_keep <-
    BOOST_FOREACH (_objectObservers this) (remove_body observer) [] ;;
  set_center {| _keyObservers := _keyObservers this;
                _objectObservers := object_observers_to_keep |}.

Definition quoted_format : string := (dquote ++ "%1" ++ dquote)%string.

Definition leak_format : string :=
  "bump::NotificationCenter has %1 observers left with keys: %2".

(** The loop body that collects the keys in the destructor. *)
Definition collect_key (observer : Observer) (keys : list string)
    : M (list string) :=
  ret (keys ++ [arg quoted_format (notificationName observer)]).

(** [NotificationCenter::~NotificationCenter()] *)
Definition NotificationCenter_destructor : M unit :=
  this <- get_center ;;
  if negb (empty (_keyObservers this)) || negb (empty (_objectObservers this))
  then
    keys <- BOOST_FOREACH (_keyObservers this) collect_key [] ;;
    keys <- BOOST_FOREACH (_objectObservers this) collect_key keys ;;
    let key_string := join keys ", " in
    let total_observers :=
      uint (size (_keyObservers this) + size (_objectObservers this)) in
    throw (NotificationError (arg2 leak_format total_observers key_string))
  else ret tt.

(** ** Vocabulary of the properties *)

(** The observers a post of [name] addresses, in stored order. *)
Definition matching (name : string) (observers : list Observer)
    : list Observer :=
  filter (fun o => String.eqb (notificationName o) name) observers.

(** The observers of an owner, and the others, in stored order. *)
Definition owned_by (observer : pointer) (observers : list Observer)
    : list Observer :=
  filter (fun o => Observer_containsObserver o observer) observers.

Definition not_owned_by (observer : pointer) (observers : list Observer)
    : list Observer :=
  filter (fun o => negb (Observer_containsObserver o observer)) observers.

(** Readings of a trace: whose [notify] was entered, whose bound function
    was called, who was deleted, each in order of occurrence. *)
Fixpoint notified (t : list event) : list Observer :=
  match t with
  | [] => []
  | Notified o :: rest => o :: notified rest
  | _ :: rest => notified rest
  end.

Fixpoint called (t : list event) : list Observer :=
  match t with
  | [] => []
  | Called o _ :: rest => o :: called rest
  | _ :: rest => called rest
  end.

Fixpoint deleted (t : list event) : list Observer :=
  match t with
  | [] => []
  | Deleted o :: rest => o :: deleted rest
  | _ :: rest => deleted rest
  end.

(** An owner callback that never throws. *)
Definition callback_returns (f : callback) : Prop :=
  forall w, snd (f w) = None.

Definition callbacks_return (o : Observer) : Prop :=
  match dynamic_class o with
  | IsKeyObserver f => callback_returns f
  | IsObjectObserver _ with_object with_pointer =>
      (forall g, with_object = Some g -> forall v, callback_returns (g v))
      /\ (forall g, with_pointer = Some g -> forall v, callback_returns (g v))
  end.

(** The observers the class constructors build. *)
Inductive constructed : Observer -> Prop :=
| constructed_key p f n : constructed (KeyObserver p f n)
| constructed_value p T f n : constructed (ObjectObserver_value p T f n)
| constructed_const_reference p T f n :
    constructed (ObjectObserver_const_reference p T f n)
| constructed_pointer p T f n : constructed (ObjectObserver_pointer p T f n)
| constructed_const_pointer p T f n :
    constructed (ObjectObserver_const_pointer p T f n).

(** The type [notify(object)] casts the object to: [T2] when the function
    with object signature is set, [T2*] otherwise. *)
Definition expected_type (o : Observer) : option type_info :=
  match dynamic_class o with
  | IsKeyObserver _ => None
  | IsObjectObserver T2 (Some _) _ => Some T2
  | IsObjectObserver T2 None _ => Some (pointer_to T2)
  end.

(** The functions whose call a [Called] event of a [notify()] records. *)
Definition key_calls (o : Observer) : list Observer :=
  match dynamic_class o with
  | IsKeyObserver _ => [o]
  | IsObjectObserver _ _ _ => []
  end.

Definition ObserverType_eqb (a b : ObserverType) : bool :=
  match a, b with
  | KEY_OBSERVER, KEY_OBSERVER => true
  | OBJECT_OBSERVER, OBJECT_OBSERVER => true
  | _, _ => false
  end.

(** The observers of a list that [addObserver] files under [type]. *)
Definition of_type (type : ObserverType) (observers : list Observer)
    : list Observer :=
  filter (fun o => ObserverType_eqb (observerType o) type) observers.

(** An object observer that takes [object]: built by a constructor,
    casting to the object's type, with callbacks that return. *)
Definition accepts (object : any) (o : Observer) : Prop :=
  constructed o
  /\ expected_type o = Some (any_type object)
  /\ callbacks_return o.

(** The key the destructor lists for an observer. *)
Definition quoted_key (o : Observer) : string :=
  arg quoted_format (notificationName o).

(** The body shared by the two post loops, over the [notify] overload. *)
Definition dispatch_body (deliver : Observer -> M unit) (name : string)
    (abs_observer : Observer) (notification_count : Z) : M Z :=
  if String.eqb (notificationName abs_observer) name
  then deliver abs_observer ;; ret (uint (notification_count + 1))
  else ret notification_count.

(** [n] increments of an [unsigned int]. *)
Fixpoint count_up (notification_count : Z) (n : nat) : Z :=
  match n with
  | O => notification_count
  | S k => count_up (uint (notification_count + 1)) k
  end.

End Bump.

(** ** The singleton and its users *)

Section Usage.

Context {World : Type} {string_ops : StringOps}.

#[local] Abbreviation Observer := (@Observer World).
#[local] Abbreviation Machine := (@Machine World).
#[local] Abbreviation NotificationCenter := (@NotificationCenter World).
#[local] Abbreviation M := (@M World).

(** [NotificationCenter::NotificationCenter()]: both vectors start empty.
    The center of a machine is the object [instance()] returns. *)
Definition NotificationCenter_constructor : NotificationCenter :=
  {| _keyObservers := []; _objectObservers := [] |}.

(** The free functions at the end of [NotificationCenter.cpp]: each
    forwards to the singleton. *)
Definition ADD_OBSERVER (observer : Observer) : M unit :=
  addObserver observer.

Definition REMOVE_OBSERVER (observer : pointer) : M unit :=
  removeObserver observer.

Definition POST_NOTIFICATION (notificationName : string) : M Z :=
  postNotification notificationName.

Definition POST_NOTIFICATION_WITH_OBJECT (notificationName : string)
    (object : any) : M Z :=
  postNotificationWithObject notificationName object.

(** One call of a user of the center; a user program is a list of them. *)
Inductive call : Type :=
| call_ADD_OBSERVER (observer : Observer)
| call_REMOVE_OBSERVER (observer : pointer)
| call_containsObserver (observer : pointer)
| call_POST_NOTIFICATION (notificationName : string)
| call_POST_NOTIFICATION_WITH_OBJECT (notificationName : string)
    (object : any).

(** The machine after a call; the caller catches what the call throws. *)
Definition perform (c : call) (m : Machine) : Machine :=
  match c with
  | call_ADD_OBSERVER o => fst (ADD_OBSERVER o m)
  | call_REMOVE_OBSERVER p => fst (REMOVE_OBSERVER p m)
  | call_containsObserver p => fst (containsObserver p m)
  | call_POST_NOTIFICATION n => fst (POST_NOTIFICATION n m)
  | call_POST_NOTIFICATION_WITH_OBJECT n object =>
      fst (POST_NOTIFICATION_WITH_OBJECT n object m)
  end.

Definition perform_all (calls : list call) (m : Machine) : Machine :=
  fold_left (fun m' c => perform c m') calls m.

(** A call that registers only what a class constructor built. *)
Definition registers_constructed (c : call) : Prop :=
  match c with
  | call_ADD_OBSERVER o => constructed o
  | _ => True
  end.

Definition is_KeyObserver (o : Observer) : Prop :=
  exists p f n, o = KeyObserver p f n.

Definition is_ObjectObserver (o : Observer) : Prop :=
  exists p T f n,
    o = ObjectObserver_value p T f n \/ o = ObjectObserver_pointer p T f n.

(** Each vector holds observers of its own class only. *)
Definition sorted_by_class (c : NotificationCenter) : Prop :=
  Forall is_KeyObserver (_keyObservers c)
  /\ Forall is_ObjectObserver (_objectObservers c).

(** The machine [m] around another center. *)
Definition with_center (c : NotificationCenter) (m : Machine) : Machine :=
  {| center := c; world := world m; trace := trace m |}.

(** What [KeyObserver::notify] does to the world when its function
    returns, and what it leaves in the trace. *)
Definition key_effect (o : Observer) (w : World) : World :=
  match dynamic_class o with
  | IsKeyObserver f => fst (f w)
  | IsObjectObserver _ _ _ => w
  end.

Definition key_events (o : Observer) : list (@event World) :=
  match dynamic_class o with
  | IsKeyObserver _ => [Notified o; Called o None]
  | IsObjectObserver _ _ _ => [Notified o]
  end.

(** The function [ObjectObserver::notify] calls once the cast has
    succeeded: the one with object signature when it is set, the one
    with pointer signature otherwise. *)
Definition bound_function (o : Observer) : option (Z -> @callback World) :=
  match dynamic_class o with
  | IsKeyObserver _ => None
  | IsObjectObserver _ (Some f) _ => Some f
  | IsObjectObserver _ None with_pointer => with_pointer
  end.

(** What that function does to the world when it returns, and what
    [notify(object)] then leaves in the trace. *)
Definition object_effect (object : any) (o : Observer) (w : World) : World :=
  match bound_function o with
  | Some f => fst (f (any_content object) w)
  | None => w
  end.

Definition object_events (object : any) (o : Observer)
    : list (@event World) :=
  [Notified o; Called o (Some (any_content object))].

End Usage.

(** ** bump::Log

    [src/bump/Log.cpp].  Every method takes the logger's mutex for its
    whole body; the embedding is of one thread, where the lock changes
    nothing.  A method is a function of the logger ([this]) and, where it
    prints, of what has been written to the streams so far.  [bump/Log.h],
    [bump/Environment.h] and [bump/String.h] are not part of the sources
    at hand: the enumerators are those [Log.cpp] names, and the helpers it
    calls, the environment, the file system and the integer values of the
    log levels are taken as an interface. *)

Inductive LogLevel : Type :=
| ALWAYS_LVL | ERROR_LVL | WARNING_LVL | INFO_LVL | DEBUG_LVL.

Inductive DateTimeFormat : Type :=
| DATE_TIME_DEFAULT | DATE_TIME_WITH_AM_PM | TIME_DEFAULT | TIME_WITH_AM_PM.

(** The streams a logger can point to: [std::cout], [std::cerr], a
    [std::ofstream] it opened on a path, a stream its user handed in. *)
Inductive ostream : Type :=
| std_cout
| std_cerr
| ofstream (filepath : string)
| stream_of_caller (id : Z).

(** [boost::posix_time::ptime], as far as [Log.cpp] reads it. *)
Record ptime : Type := {
  date_year : Z;
  date_month : Z;
  date_day : Z;
  time_of_day_hours : Z;
  time_of_day_minutes : Z;
  time_of_day_seconds : Z
}.

Class LogCollaborators : Type := {
  (** [bump/Log.h]: the integer value of each enumerator, and the names
      of the environment variables *)
  level_value : LogLevel -> Z;
  BUMP_LOG_ENABLED : string;
  BUMP_LOG_LEVEL : string;
  BUMP_LOG_FILE : string;
  (** [bump::Environment::environmentVariable] *)
  environmentVariable : string -> string;
  (** [bump::String]: [toLowerCase], construction from a [long] and from
      an [int], [toInt], [arg] with several strings *)
  toLowerCase : string -> string;
  String_of_long : Z -> string;
  String_of_int : Z -> string;
  toInt : string -> Z;
  arg_strings : string -> list string -> string;
  (** whether [std::ofstream(filepath)] opens *)
  ofstream_opens : string -> bool
}.

Record Log : Type := {
  _isEnabled : bool;
  _logLevel : LogLevel;
  _isDateTimeFormatEnabled : bool;
  _dateTimeFormat : DateTimeFormat;
  _logStream : ostream
}.

(** What was inserted into which stream, oldest first. *)
Definition output : Type := list (ostream * string).

(** [String::empty] *)
Definition String_empty (s : string) : bool :=
  match s with
  | EmptyString => true
  | String _ _ => false
  end.

Definition endl : string := String (ascii_of_nat 10) EmptyString.

(** [std::cout << part << ... << std::endl] *)
Definition cout_line (out : output) (parts : list string) : output :=
  out ++ map (fun part => (std_cout, part)) parts ++ [(std_cout, endl)].

(** [while (cond) body], run for at most [fuel] rounds. *)
Fixpoint while_loop {S : Type} (fuel : nat) (cond : S -> bool)
    (body : S -> S) (s : S) : S :=
  match fuel with
  | O => s
  | Datatypes.S rounds =>
      if cond s then while_loop rounds cond body (body s) else s
  end.

(** [while (text.length() < 2) text.append("0")]: each round makes the
    text one character longer, so [2 - length] rounds are enough. *)
Definition append_zeros_while_short (text : string) : string :=
  while_loop (2 - String.length text)
    (fun t => Nat.ltb (String.length t) 2)
    (fun t => (t ++ "0")%string)
    text.

Section LogMethods.

Context {collaborators : LogCollaborators}.

Definition setIsLogEnabled (enabled : bool) (this : Log) : Log :=
  {| _isEnabled := enabled;
     _logLevel := _logLevel this;
     _isDateTimeFormatEnabled := _isDateTimeFormatEnabled this;
     _dateTimeFormat := _dateTimeFormat this;
     _logStream := _logStream this |}.

Definition isLogEnabled (this : Log) : bool := _isEnabled this.

Definition isLogLevelEnabled (logLevel : LogLevel) (this : Log) : bool :=
  if negb (_isEnabled this) then false
  else (level_value logLevel <=? level_value (_logLevel this))%Z.

Definition setLogLevel (logLevel : LogLevel) (this : Log) : Log :=
  {| _isEnabled := _isEnabled this;
     _logLevel := logLevel;
     _isDateTimeFormatEnabled := _isDateTimeFormatEnabled this;
     _dateTimeFormat := _dateTimeFormat this;
     _logStream := _logStream this |}.

Definition logLevel (this : Log) : LogLevel := _logLevel this.

Definition setDateTimeFormat (format : DateTimeFormat) (this : Log) : Log :=
  {| _isEnabled := _isEnabled this;
     _logLevel := _logLevel this;
     _isDateTimeFormatEnabled := _isDateTimeFormatEnabled this;
     _dateTimeFormat := format;
     _logStream := _logStream this |}.

Definition setIsDateTimeFormattingEnabled (enabled : bool) (this : Log)
    : Log :=
  {| _isEnabled := _isEnabled this;
     _logLevel := _logLevel this;
     _isDateTimeFormatEnabled := enabled;
     _dateTimeFormat := _dateTimeFormat this;
     _logStream := _logStream this |}.

Definition isDateTimeFormattingEnabled (this : Log) : bool :=
  _isDateTimeFormatEnabled this.

Definition dateTimeFormat (this : Log) : DateTimeFormat :=
  _dateTimeFormat this.

Definition setLogStream (stream : ostream) (this : Log) : Log :=
  {| _isEnabled := _isEnabled this;
     _logLevel := _logLevel this;
     _isDateTimeFormatEnabled := _isDateTimeFormatEnabled this;
     _dateTimeFormat := _dateTimeFormat this;
     _logStream := stream |}.

(** [Log::setLogFile]: the logger after the call, and what it returns. *)
Definition setLogFile (filepath : string) (this : Log) : Log * bool :=
  if negb (ofstream_opens filepath)
  then (this, false)
  else (setLogStream (ofstream filepath) this, true).

(** [Log::_convertTimeToString], with [now] what
    [second_clock::local_time()] returns. *)
Definition _convertTimeToString (this : Log) (now : ptime) : string :=
  let year := String_of_long (date_year now) in
  let month := String_of_long (date_month now) in
  let day := String_of_long (date_day now) in
  let hours := String_of_long (time_of_day_hours now) in
  let minutes := String_of_long (time_of_day_minutes now) in
  let seconds := String_of_long (time_of_day_seconds now) in
  let am_pm := if (toInt hours <? 13)%Z then "AM" else "PM" in
  let hours :=
    if (toInt hours >? 12)%Z then String_of_int (toInt hours - 12) else hours
  in
  let minutes := append_zeros_while_short minutes in
  let seconds := append_zeros_while_short seconds in
  match _dateTimeFormat this with
  | DATE_TIME_DEFAULT =>
      arg_strings "%1-%2-%3 %4:%5:%6"
        [year; month; day; hours; minutes; seconds]
  | DATE_TIME_WITH_AM_PM =>
      arg_strings "%1-%2-%3 %4:%5:%6 %7"
        [year; month; day; hours; minutes; seconds; am_pm]
  | TIME_DEFAULT => arg_strings "%1:%2:%3" [hours; minutes; seconds]
  | TIME_WITH_AM_PM =>
      arg_strings "%1:%2:%3 %4" [hours; minutes; seconds; am_pm]
  end.

(** [Log::logStream(prefix)]: what has been written afterwards, and the
    stream it returns. *)
Definition logStream (prefix : string) (now : ptime) (this : Log)
    (out : output) : output * ostream :=
  let stream := _logStream this in
  let out :=
    if _isDateTimeFormatEnabled this
    then out ++ [(stream, _convertTimeToString this now); (stream, " ")]
    else out in
  let out :=
    if negb (String_empty prefix) then out ++ [(stream, prefix)] else out in
  (out, _logStream this).

(** [Log::Log()]: the logger it builds, and what it has printed. *)
Definition Log_constructor (out : output) : Log * output :=
  let this :=
    {| _isEnabled := true;
       _logLevel := WARNING_LVL;
       _isDateTimeFormatEnabled := false;
       _dateTimeFormat := DATE_TIME_DEFAULT;
       _logStream := std_cout |} in
  let logEnabled := toLowerCase (environmentVariable BUMP_LOG_ENABLED) in
  if (logEnabled =? "no") || (logEnabled =? "false")
     || (logEnabled =? "nope") || (logEnabled =? "disable")
  then
    (setIsLogEnabled false this,
     cout_line out ["[bump] Setting LOG_ENABLED to NO"])
  else
    let logLevel := environmentVariable BUMP_LOG_LEVEL in
    let '(this, out) :=
      if logLevel =? "ALWAYS_LVL" then
        (setLogLevel ALWAYS_LVL this,
         cout_line out ["[bump] Setting BUMP_LOG_LEVEL to ALWAYS"])
      else if logLevel =? "ERROR_LVL" then
        (setLogLevel ERROR_LVL this,
         cout_line out ["[bump] Setting BUMP_LOG_LEVEL to ERROR"])
      else if logLevel =? "WARNING_LVL" then
        (setLogLevel WARNING_LVL this,
         cout_line out ["[bump] Setting BUMP_LOG_LEVEL to WARNING"])
      else if logLevel =? "INFO_LVL" then
        (setLogLevel INFO_LVL this,
         cout_line out ["[bump] Setting BUMP_LOG_LEVEL to INFO"])
      else if logLevel =? "DEBUG_LVL" then
        (setLogLevel DEBUG_LVL this,
         cout_line out ["[bump] Setting BUMP_LOG_LEVEL to DEBUG"])
      else if negb (String_empty logLevel) then
        (this,
         cout_line out
           ["[bump] WARNING: Your BUMP_LOG_LEVEL environment variable: [";
            logLevel;
            "] does not match any of the possible options: [ ALWAYS_LVL | ERROR_LVL | WARNING_LVL ";
            "| INFO_LVL | DEBUG_LVL ]"])
      else (this, out) in
    let logFile := environmentVariable BUMP_LOG_FILE in
    if negb (String_empty logFile) then
      if logFile =? "stderr" then (setLogStream std_cerr this, out)
      else if negb (logFile =? "stdout") then
        let '(this, success) := setLogFile logFile this in
        if success
        then (this, cout_line out ["[bump] Setting BUMP_LOG_FILE to "; logFile])
        else
          (this,
           cout_line out
             ["[bump] WARNING: Your BUMP_LOG_FILE environment variable: [";
              logFile; "] could not be created or opened"])
      else (this, out)
    else (this, out).

(** One call of a user of the logger. *)
Inductive log_call : Type :=
| call_setIsLogEnabled (enabled : bool)
| call_setLogLevel (logLevel : LogLevel)
| call_setDateTimeFormat (format : DateTimeFormat)
| call_setIsDateTimeFormattingEnabled (enabled : bool)
| call_setLogFile (filepath : string)
| call_setLogStream (stream : ostream)
| call_logStream (prefix : string) (now : ptime).

(** The logger and the streams after a call. *)
Definition log_perform (c : log_call) (state : Log * output)
    : Log * output :=
  let (this, out) := state in
  match c with
  | call_setIsLogEnabled enabled => (setIsLogEnabled enabled this, out)
  | call_setLogLevel l => (setLogLevel l this, out)
  | call_setDateTimeFormat format => (setDateTimeFormat format this, out)
  | call_setIsDateTimeFormattingEnabled enabled =>
      (setIsDateTimeFormattingEnabled enabled this, out)
  | call_setLogFile filepath => (fst (setLogFile filepath this), out)
  | call_setLogStream stream => (setLogStream stream this, out)
  | call_logStream prefix now => (this, fst (logStream prefix now this out))
  end.

Definition log_perform_all (calls : list log_call) (state : Log * output)
    : Log * output :=
  fold_left (fun st c => log_perform c st) calls state.

(** ** Vocabulary of the logger's properties *)

(** The values of [BUMP_LOG_ENABLED] (lower-cased) that switch the logger
    off. *)
Definition switches_off (logEnabled : string) : bool :=
  (logEnabled =? "no") || (logEnabled =? "false")
  || (logEnabled =? "nope") || (logEnabled =? "disable").

(** The level a value of [BUMP_LOG_LEVEL] names, if any. *)
Definition level_named (logLevel : string) : option LogLevel :=
  if logLevel =? "ALWAYS_LVL" then Some ALWAYS_LVL
  else if logLevel =? "ERROR_LVL" then Some ERROR_LVL
  else if logLevel =? "WARNING_LVL" then Some WARNING_LVL
  else if logLevel =? "INFO_LVL" then Some INFO_LVL
  else if logLevel =? "DEBUG_LVL" then Some DEBUG_LVL
  else None.

(** A stream that is not a file which fails to open. *)
Definition not_a_failed_file (stream : ostream) : Prop :=
  match stream with
  | ofstream filepath => ofstream_opens filepath = true
  | _ => True
  end.

Definition ostream_eqb (a b : ostream) : bool :=
  match a, b with
  | std_cout, std_cout => true
  | std_cerr, std_cerr => true
  | ofstream p, ofstream q => String.eqb p q
  | stream_of_caller i, stream_of_caller j => Z.eqb i j
  | _, _ => false
  end.

(** Everything written to a stream, in order. *)
Fixpoint text_on (stream : ostream) (out : output) : string :=
  match out with
  | [] => EmptyString
  | (s, text) :: rest =>
      if ostream_eqb s stream
      then (text ++ text_on stream rest)%string
      else text_on stream rest
  end.

(** The time [now] with other minutes, seconds or hours. *)
Definition with_minutes (minutes : Z) (now : ptime) : ptime :=
  {| date_year := date_year now;
     date_month := date_month now;
     date_day := date_day now;
     time_of_day_hours := time_of_day_hours now;
     time_of_day_minutes := minutes;
     time_of_day_seconds := time_of_day_seconds now |}.

Definition with_seconds (seconds : Z) (now : ptime) : ptime :=
  {| date_year := date_year now;
     date_month := date_month now;
     date_day := date_day now;
     time_of_day_hours := time_of_day_hours now;
     time_of_day_minutes := time_of_day_minutes now;
     time_of_day_seconds := seconds |}.

Definition with_hours (hours : Z) (now : ptime) : ptime :=
  {| date_year := date_year now;
     date_month := date_month now;
     date_day := date_day now;
     time_of_day_hours := hours;
     time_of_day_minutes := time_of_day_minutes now;
     time_of_day_seconds := time_of_day_seconds now |}.

End LogMethods.

(** ** A concrete program

    Two owners register observers on a center and post to it.  The world
    of the owners is the journal their callbacks write. *)

Definition Journal : Type := list string.

(** A callback that writes one line and returns. *)
Definition writes (line : string) : @callback Journal :=
  fun journal => (journal ++ [line], None).

(** A callback that throws. *)
Definition throws (what : string) : @callback Journal :=
  fun journal => (journal, Some (user_exception what)).

(** A stand-in for [bump::String]'s formatting in this program: every
    [%digit] of the format is replaced by the argument. *)
Fixpoint fill (digit : ascii) (value format : string) : string :=
  match format with
  | EmptyString => EmptyString
  | String c tail =>
      match tail with
      | EmptyString => format
      | String d rest =>
          if (Ascii.eqb c "%" && Ascii.eqb d digit)%bool
          then (value ++ fill digit value rest)%string
          else String c (fill digit value tail)
      end
  end.

Definition placeholder_format : StringOps := {|
  arg format a := fill "1" a format;
  arg2 format n text :=
    fill "2" text (fill "1" (NilZero.string_of_int (Z.to_int n)) format);
  join items separator := String.concat separator items
|}.

Definition alice : pointer := 4096%Z.
Definition bob : pointer := 8192%Z.

Definition int : type_info := typeid 0.
Definition Widget : type_info := typeid 1.

Definition alice_on_N : @Observer Journal :=
  KeyObserver alice (writes "alice.onN") "N".
Definition bob_on_N : @Observer Journal :=
  KeyObserver bob (writes "bob.onN") "N".
Definition alice_on_Quit : @Observer Journal :=
  KeyObserver alice (writes "alice.onQuit") "Quit".
Definition bob_fails_on_N : @Observer Journal :=
  KeyObserver bob (throws "bob.onN failed") "N".

Definition alice_takes_int : @Observer Journal :=
  ObjectObserver_value alice int (fun _ => writes "alice.onValue") "N".
Definition bob_takes_Widget_pointer : @Observer Journal :=
  ObjectObserver_pointer bob Widget (fun _ => writes "bob.onWidget") "N".
Definition bob_takes_int : @Observer Journal :=
  ObjectObserver_const_reference bob int (fun _ => writes "bob.onValue") "N".

Definition machine_with (key object : list Observer) : @Machine Journal :=
  {| center := {| _keyObservers := key; _objectObservers := object |};
     world := [];
     trace := [] |}.

Definition busy : Machine :=
  machine_with [alice_on_N; alice_on_Quit; bob_on_N]
    [alice_takes_int; bob_takes_Widget_pointer; bob_takes_int].

Definition fresh : Machine := machine_with [] [].

Definition forty_two : any := {| any_type := int; any_content := 42 |}.

Definition alice_on_N_again : @Observer Journal :=
  KeyObserver alice (writes "alice.onN again") "N".

Definition carol : pointer := 12288%Z.

(** A center where the second of three key observers for ["N"] throws. *)
Definition faulty : Machine :=
  machine_with [alice_on_N; bob_fails_on_N; alice_on_N_again] [].

(** A center that holds nothing for ["N"]. *)
Definition quiet : Machine := machine_with [alice_on_Quit] [].

(** A center whose object observers all take an [int]. *)
Definition agreeable : Machine :=
  machine_with [] [alice_takes_int; bob_takes_int].

(** An object observer whose function throws, and a center where it is
    the second of three object observers for ["N"]. *)
Definition bob_fails_on_int : @Observer Journal :=
  ObjectObserver_value bob int (fun _ => throws "bob.onValue failed") "N".

Definition faulty_objects : Machine :=
  machine_with [] [alice_takes_int; bob_fails_on_int; bob_takes_int].

(** A center where only [bob] is registered. *)
Definition bobs : Machine := machine_with [bob_on_N] [bob_takes_int].

(** A callback that writes a line and then throws [boost::bad_any_cast]
    itself. *)
Definition miscasts (line : string) : @callback Journal :=
  fun journal => (journal ++ [line], Some bad_any_cast).

(** A user program on a new center. *)
Definition session : list (@call Journal) :=
  [call_ADD_OBSERVER alice_on_N;
   call_ADD_OBSERVER bob_takes_Widget_pointer;
   call_ADD_OBSERVER alice_takes_int;
   call_POST_NOTIFICATION "N";
   call_POST_NOTIFICATION_WITH_OBJECT "N" forty_two;
   call_containsObserver bob;
   call_REMOVE_OBSERVER alice;
   call_ADD_OBSERVER bob_on_N].

(** *** A logger on a desk machine

    Stand-ins for the logger's collaborators: ASCII lower case, decimal
    text of integers, [%digit] placeholders, an environment given as a
    list of variables, a file system given as the list of paths that
    open, the levels numbered in the order [Log.cpp] lists them. *)

Definition lower (c : ascii) : ascii :=
  let n := nat_of_ascii c in
  if (Nat.leb 65 n && Nat.leb n 90)%bool then ascii_of_nat (n + 32) else c.

Fixpoint lowercase (s : string) : string :=
  match s with
  | EmptyString => EmptyString
  | String c rest => String (lower c) (lowercase rest)
  end.

Definition decimal (n : Z) : string := NilZero.string_of_int (Z.to_int n).

Definition decimal_value (s : string) : Z :=
  match NilZero.int_of_string s with
  | Some i => Z.of_int i
  | None => 0%Z
  end.

Fixpoint fill_all (index : nat) (values : list string) (format : string)
    : string :=
  match values with
  | [] => format
  | value :: rest =>
      fill_all (S index) rest (fill (ascii_of_nat (48 + index)) value format)
  end.

Fixpoint variable (vars : list (string * string)) (name : string) : string :=
  match vars with
  | [] => EmptyString
  | (n, value) :: rest => if String.eqb n name then value else variable rest name
  end.

Definition desk (vars : list (string * string)) (files_that_open : list string)
    : LogCollaborators :=
  {| level_value l :=
       match l with
       | ALWAYS_LVL => 0%Z
       | ERROR_LVL => 1%Z
       | WARNING_LVL => 2%Z
       | INFO_LVL => 3%Z
       | DEBUG_LVL => 4%Z
       end;
     BUMP_LOG_ENABLED := "BUMP_LOG_ENABLED";
     BUMP_LOG_LEVEL := "BUMP_LOG_LEVEL";
     BUMP_LOG_FILE := "BUMP_LOG_FILE";
     environmentVariable := variable vars;
     toLowerCase := lowercase;
     String_of_long := decimal;
     String_of_int := decimal;
     toInt := decimal_value;
     arg_strings format values := fill_all 1 values format;
     ofstream_opens filepath := existsb (String.eqb filepath) files_that_open
  |}.

(** Logging switched off, with a level and a file set besides. *)
Definition muted_desk : LogCollaborators :=
  desk [("BUMP_LOG_ENABLED", "Nope"); ("BUMP_LOG_LEVEL", "DEBUG_LVL");
        ("BUMP_LOG_FILE", "/var/log/bump.log")]
       ["/var/log/bump.log"].

(** A level in small letters and a log file that does not open. *)
Definition sloppy_desk : LogCollaborators :=
  desk [("BUMP_LOG_LEVEL", "debug_lvl");
        ("BUMP_LOG_FILE", "/no/such/directory/bump.log")]
       ["/var/log/bump.log"].

(** Nothing set. *)
Definition plain_desk : LogCollaborators := desk [] ["/var/log/bump.log"].

Definition afternoon : ptime :=
  {| date_year := 2012; date_month := 12; date_day := 3;
     time_of_day_hours := 15; time_of_day_minutes := 5;
     time_of_day_seconds := 7 |}.

Definition noon : ptime :=
  {| date_year := 2012; date_month := 12; date_day := 3;
     time_of_day_hours := 12; time_of_day_minutes := 30;
     time_of_day_seconds := 0 |}.

(** The logger the constructor builds when nothing is set. *)
Definition default_log : Log :=
  {| _isEnabled := true;
     _logLevel := WARNING_LVL;
     _isDateTimeFormatEnabled := false;
     _dateTimeFormat := DATE_TIME_DEFAULT;
     _logStream := std_cout |}.

Definition log_session : list log_call :=
  [call_setLogFile "/no/such/directory/bump.log";
   call_logStream "[bump] " afternoon;
   call_setLogStream (stream_of_caller 7);
   call_setIsDateTimeFormattingEnabled true;
   call_logStream "" noon;
   call_setLogFile "/var/log/bump.log"].

Section Properties.

Context {World : Type} {string_ops : StringOps}.

#[local] Abbreviation Observer := (@Observer World).
#[local] Abbreviation Machine := (@Machine World).
#[local] Abbreviation NotificationCenter := (@NotificationCenter World).
#[local] Abbreviation event := (@event World).
#[local] Abbreviation callback := (@callback World).
#[local] Abbreviation M := (@M World).
#[local] Notation "c1 ;; c2" := (bind c1 (fun _ => c2))
  (at level 61, right associativity).

Implicit Types (m : Machine) (o b : Observer).
Implicit Types (observers pre post : list Observer).

(** ** Auxiliary lemmas *)

Lemma type_info_eqb_eq (a b : type_info) :
  type_info_eqb a b = true <-> a = b.
Proof.
  revert b; induction a as [x | a IH]; intros [y | b]; simpl;
    try (split; [discriminate | congruence]).
  - rewrite Nat.eqb_eq; split; congruence.
  - rewrite IH; split; congruence.
Qed.

Lemma type_info_eqb_refl (a : type_info) : type_info_eqb a a = true.
Proof. now apply type_info_eqb_eq. Qed.

Lemma type_info_eqb_neq (a b : type_info) :
  a <> b -> type_info_eqb a b = false.
Proof.
  intros H; destruct (type_info_eqb a b) eqn:E; [|reflexivity].
  apply type_info_eqb_eq in E; contradiction.
Qed.

Lemma notified_app (s t : list event) :
  notified (s ++ t) = notified s ++ notified t.
Proof. induction s as [|[]]; simpl; congruence. Qed.

Lemma called_app (s t : list event) :
  called (s ++ t) = called s ++ called t.
Proof. induction s as [|[]]; simpl; congruence. Qed.

Lemma deleted_app (s t : list event) :
  deleted (s ++ t) = deleted s ++ deleted t.
Proof. induction s as [|[]]; simpl; congruence. Qed.

Lemma count_up_uint (n : nat) :
  forall c, (0 <= c < UINT_MODULUS)%Z ->
    count_up c n = uint (c + Z.of_nat n).
Proof.
  unfold uint, UINT_MODULUS.
  induction n as [|k IH]; intros c Hc.
  - simpl; rewrite Z.add_0_r, Z.mod_small; lia.
  - cbn [count_up]; unfold uint, UINT_MODULUS in *.
    rewrite IH by (apply Z.mod_pos_bound; lia).
    rewrite Zplus_mod_idemp_l; f_equal; lia.
Qed.

Lemma count_up_exact (n : nat) :
  (Z.of_nat n < UINT_MODULUS)%Z -> count_up 0 n = Z.of_nat n.
Proof.
  intros H; rewrite count_up_uint by (unfold UINT_MODULUS; lia).
  unfold uint; rewrite Z.add_0_l; apply Z.mod_small; lia.
Qed.

Lemma postNotification_unfold (name : string) (m : Machine) :
  postNotification name m
  = BOOST_FOREACH (_keyObservers (center m)) (dispatch_body notify name)
      0%Z m.
Proof. reflexivity. Qed.

Lemma postNotificationWithObject_unfold (name : string) (object : any)
    (m : Machine) :
  postNotificationWithObject name object m
  = BOOST_FOREACH (_objectObservers (center m))
      (dispatch_body (fun o => notify_object o object) name) 0%Z m.
Proof. reflexivity. Qed.

Lemma notify_center (o : Observer) (m : Machine) :
  center (fst (notify o m)) = center m.
Proof.
  unfold notify, bind, log, run, ret; simpl.
  destruct (dynamic_class o) as [f|]; simpl; [|reflexivity].
  destruct (f (world m)) as [w [e|]]; reflexivity.
Qed.

Lemma notify_object_center (o : Observer) (object : any) (m : Machine) :
  center (fst (notify_object o object m)) = center m.
Proof.
  unfold notify_object, try_catch_bad_any_cast, call_function, any_cast,
    bind, log, run, ret, throw; simpl.
  destruct (dynamic_class o) as [f|T [f|] [g|]]; simpl; try reflexivity;
    match goal with
    | |- context [type_info_eqb ?a ?b] => destruct (type_info_eqb a b)
    end; simpl; try reflexivity;
    match goal with
    | |- context [?h (any_content object) (world m)] =>
        destruct (h (any_content object) (world m)) as [w [[]|]]
    end; reflexivity.
Qed.

Lemma foreach_cons {A L : Type} (x : A) (rest : list A)
    (body : A -> L -> M L) (locals : L) (m : Machine) :
  BOOST_FOREACH (x :: rest) body locals m
  = match body x locals m with
    | (m', Return locals') => BOOST_FOREACH rest body locals' m'
    | (m', Throw e) => (m', Throw e)
    end.
Proof. reflexivity. Qed.

Lemma dispatch_body_hit (deliver : Observer -> M unit) (name : string)
    (o : Observer) (c : Z) (m : Machine) :
  String.eqb (notificationName o) name = true ->
  dispatch_body deliver name o c m
  = match deliver o m with
    | (m', Return _) => (m', Return (uint (c + 1)))
    | (m', Throw e) => (m', Throw e)
    end.
Proof. intros H; unfold dispatch_body; rewrite H; reflexivity. Qed.

Lemma dispatch_body_miss (deliver : Observer -> M unit) (name : string)
    (o : Observer) (c : Z) (m : Machine) :
  String.eqb (notificationName o) name = false ->
  dispatch_body deliver name o c m = (m, Return c).
Proof. intros H; unfold dispatch_body; rewrite H; reflexivity. Qed.

Lemma foreach_dispatch_center (deliver : Observer -> M unit) (name : string) :
  (forall o m, center (fst (deliver o m)) = center m) ->
  forall observers c m,
    center (fst (BOOST_FOREACH observers (dispatch_body deliver name) c m))
    = center m.
Proof.
  intros Hd; induction observers as [|o rest IH]; intros c m; [reflexivity|].
  rewrite foreach_cons.
  destruct (String.eqb (notificationName o) name) eqn:E.
  - rewrite dispatch_body_hit by exact E. specialize (Hd o m).
    destruct (deliver o m) as [m1 [[]|e]]; simpl in *.
    + rewrite IH; exact Hd.
    + exact Hd.
  - rewrite dispatch_body_miss by exact E. apply IH.
Qed.

(** [deliver] on [o] returns normally from every machine, leaving one
    [Notified o] and the calls [calls_of o] in the trace. *)
Definition delivers (deliver : Observer -> M unit)
    (calls_of : Observer -> list Observer) (o : Observer) : Prop :=
  forall m, exists m' t,
    deliver o m = (m', Return tt)
    /\ trace m' = trace m ++ t
    /\ notified t = [o] /\ called t = calls_of o /\ deleted t = [].

(** [deliver] on [o] throws [e] from every machine, leaving one
    [Notified o] and the calls [calls] in the trace. *)
Definition fails_with (deliver : Observer -> M unit) (e : exception)
    (calls : list Observer) (o : Observer) : Prop :=
  forall m, exists m' t,
    deliver o m = (m', Throw e)
    /\ trace m' = trace m ++ t
    /\ notified t = [o] /\ called t = calls /\ deleted t = [].

Lemma matching_cons_hit (name : string) (o : Observer) (rest : list Observer) :
  String.eqb (notificationName o) name = true ->
  matching name (o :: rest) = o :: matching name rest.
Proof. intros H; unfold matching; simpl; rewrite H; reflexivity. Qed.

Lemma matching_cons_miss (name : string) (o : Observer)
    (rest : list Observer) :
  String.eqb (notificationName o) name = false ->
  matching name (o :: rest) = matching name rest.
Proof. intros H; unfold matching; simpl; rewrite H; reflexivity. Qed.

Lemma matching_app (name : string) (l1 l2 : list Observer) :
  matching name (l1 ++ l2) = matching name l1 ++ matching name l2.
Proof. apply filter_app. Qed.

Lemma foreach_dispatch_returns (deliver : Observer -> M unit)
    (calls_of : Observer -> list Observer) (name : string) :
  forall observers,
    (forall o, In o (matching name observers) -> delivers deliver calls_of o) ->
    forall c m, exists m' t,
      BOOST_FOREACH observers (dispatch_body deliver name) c m
      = (m', Return (count_up c (List.length (matching name observers))))
      /\ trace m' = trace m ++ t
      /\ notified t = matching name observers
      /\ called t = flat_map calls_of (matching name observers)
      /\ deleted t = [].
Proof.
  induction observers as [|o rest IH]; intros H c m.
  - exists m, []; simpl; rewrite app_nil_r; auto.
  - rewrite foreach_cons.
    destruct (String.eqb (notificationName o) name) eqn:E.
    + rewrite matching_cons_hit in * by exact E.
      destruct (H o (in_eq _ _) m) as (m1 & t1 & E1 & T1 & N1 & C1 & D1).
      rewrite dispatch_body_hit, E1 by exact E.
      destruct (IH (fun o' Ho' => H o' (in_cons _ _ _ Ho')) (uint (c + 1)) m1)
        as (m2 & t2 & E2 & T2 & N2 & C2 & D2).
      exists m2, (t1 ++ t2); rewrite E2; cbn [List.length count_up flat_map].
      rewrite T2, T1, app_assoc, notified_app, called_app, deleted_app,
        N1, N2, C1, C2, D1, D2.
      auto.
    + rewrite matching_cons_miss in * by exact E.
      rewrite dispatch_body_miss by exact E.
      apply IH; exact H.
Qed.

Lemma foreach_dispatch_throws (deliver : Observer -> M unit)
    (calls_of : Observer -> list Observer) (name : string) (e : exception)
    (calls : list Observer) (b : Observer) (post : list Observer) :
  String.eqb (notificationName b) name = true ->
  fails_with deliver e calls b ->
  forall pre,
    (forall o, In o (matching name pre) -> delivers deliver calls_of o) ->
    forall c m, exists m' t,
      BOOST_FOREACH (pre ++ b :: post) (dispatch_body deliver name) c m
      = (m', Throw e)
      /\ trace m' = trace m ++ t
      /\ notified t = matching name pre ++ [b]
      /\ called t = flat_map calls_of (matching name pre) ++ calls
      /\ deleted t = [].
Proof.
  intros Eb Hb; induction pre as [|o rest IH]; intros H c m.
  - destruct (Hb m) as (m1 & t1 & E1 & T1 & N1 & C1 & D1).
    exists m1, t1; simpl app; rewrite foreach_cons, dispatch_body_hit, E1
      by exact Eb.
    auto.
  - rewrite <- app_comm_cons, foreach_cons.
    destruct (String.eqb (notificationName o) name) eqn:E.
    + rewrite matching_cons_hit in * by exact E.
      destruct (H o (in_eq _ _) m) as (m1 & t1 & E1 & T1 & N1 & C1 & D1).
      rewrite dispatch_body_hit, E1 by exact E.
      destruct (IH (fun o' Ho' => H o' (in_cons _ _ _ Ho')) (uint (c + 1)) m1)
        as (m2 & t2 & E2 & T2 & N2 & C2 & D2).
      exists m2, (t1 ++ t2); rewrite E2; cbn [flat_map].
      rewrite T2, T1, app_assoc, notified_app, called_app, deleted_app,
        N1, N2, C1, C2, D1, D2.
      repeat split; rewrite ?app_assoc; reflexivity.
    + rewrite matching_cons_miss in * by exact E.
      rewrite dispatch_body_miss by exact E.
      apply IH; exact H.
Qed.

Lemma notify_delivers (o : Observer) :
  callbacks_return o -> delivers notify key_calls o.
Proof.
  unfold callbacks_return, key_calls, delivers, notify, bind, log, run, ret.
  intros H m; simpl.
  destruct (dynamic_class o) as [f|T g h]; simpl.
  - specialize (H (world m)).
    destruct (f (world m)) as [w thrown]; simpl in H; subst thrown.
    eexists _, [Notified o; Called o None]; simpl.
    rewrite <- app_assoc; auto.
  - eexists _, [Notified o]; auto.
Qed.

Lemma notify_object_delivers (o : Observer) (object : any) :
  constructed o ->
  expected_type o = Some (any_type object) ->
  callbacks_return o ->
  delivers (fun o' => notify_object o' object) (fun o' => [o']) o.
Proof.
  intros Hc Ht Hr m.
  destruct Hc as [p f n | p T f n | p T f n | p T f n | p T f n];
    try discriminate Ht;
    unfold expected_type in Ht; simpl in Ht; injection Ht as Ht;
    destruct Hr as [Hr1 Hr2]; simpl in Hr1, Hr2;
    unfold notify_object, try_catch_bad_any_cast, call_function, any_cast,
      bind, log, run, ret, throw; simpl;
    rewrite <- Ht, type_info_eqb_refl; simpl;
    match goal with
    | |- context [f ?v ?w] =>
        first [ pose proof (Hr1 f eq_refl v w) as Hf
              | pose proof (Hr2 f eq_refl v w) as Hf ];
        destruct (f v w) as [w' thrown]; simpl in Hf; subst thrown
    end;
    match goal with
    | |- context [Called ?x ?a] =>
        eexists _, [Notified x; Called x a]; simpl;
        rewrite <- app_assoc; auto
    end.
Qed.

Lemma notify_object_mismatch (b : Observer) (object : any) (T : type_info)
    (m : Machine) :
  expected_type b = Some T ->
  T <> any_type object ->
  notify_object b object m
  = ({| center := center m; world := world m;
        trace := trace m ++ [Notified b] |},
     Throw (NotificationError
              (arg invalid_type_format (_notificationName b)))).
Proof.
  unfold expected_type, notify_object, try_catch_bad_any_cast, call_function,
    any_cast, bind, log, run, ret, throw; simpl.
  intros Ht Hne.
  destruct (dynamic_class b) as [f|T2 [g|] h]; try discriminate Ht;
    injection Ht as Ht; subst T;
    rewrite type_info_eqb_neq by congruence; reflexivity.
Qed.

Lemma flat_map_singleton {A : Type} (l : list A) :
  flat_map (fun x => [x]) l = l.
Proof. induction l; simpl; congruence. Qed.

Lemma notify_throw_inv (o : Observer) (m m' : Machine) (e : exception) :
  notify o m = (m', Throw e) ->
  exists f, dynamic_class o = IsKeyObserver f /\ snd (f (world m)) = Some e.
Proof.
  unfold notify, bind, log, run, ret; simpl.
  destruct (dynamic_class o) as [f|T g h]; simpl; [|discriminate].
  intros H; exists f; split; [reflexivity|].
  destruct (f (world m)) as [w [e'|]]; simpl in *; congruence.
Qed.

Lemma foreach_dispatch_throw_inv (deliver : Observer -> M unit)
    (name : string) (e : exception) :
  forall observers c m m',
    BOOST_FOREACH observers (dispatch_body deliver name) c m = (m', Throw e) ->
    exists o m0 m1,
      In o (matching name observers) /\ deliver o m0 = (m1, Throw e).
Proof.
  induction observers as [|o rest IH]; intros c m m' H; [discriminate H|].
  rewrite foreach_cons in H.
  destruct (String.eqb (notificationName o) name) eqn:E.
  - rewrite matching_cons_hit by exact E.
    rewrite dispatch_body_hit in H by exact E.
    destruct (deliver o m) as [m1 [[]|e1]] eqn:D.
    + destruct (IH _ _ _ H) as (o' & m0 & m2 & Hin & Ho').
      exists o', m0, m2; split; [right; exact Hin | exact Ho'].
    + injection H as H1 H2; subst e1.
      exists o, m, m1; split; [left; reflexivity | exact D].
  - rewrite matching_cons_miss by exact E.
    rewrite dispatch_body_miss in H by exact E.
    exact (IH _ _ _ H).
Qed.

(** ** Properties of the notification center *)

(** C1. [postNotification(name)] scans [_keyObservers] only, in stored
    order: when the callbacks of the key observers registered for [name]
    return, and their number fits an [unsigned int], [notify()] is entered
    on exactly the key observers whose notification name equals [name], in
    registration order (each [KeyObserver] among them calling its bound
    function), and the call returns their number; nothing is deleted and
    the center is left as it was. *)
Theorem postNotification_notifies_matching_in_order (name : string)
    (m : Machine) :
  (forall o, In o (matching name (_keyObservers (center m))) ->
             callbacks_return o) ->
  (size (matching name (_keyObservers (center m))) < UINT_MODULUS)%Z ->
  exists m' t,
    postNotification name m
    = (m', Return (size (matching name (_keyObservers (center m)))))
    /\ center m' = center m
    /\ trace m' = trace m ++ t
    /\ notified t = matching name (_keyObservers (center m))
    /\ called t = flat_map key_calls (matching name (_keyObservers (center m)))
    /\ deleted t = [].
Proof.
  intros Hret Hfit.
  destruct (foreach_dispatch_returns notify key_calls name
              (_keyObservers (center m))
              (fun o Ho => notify_delivers o (Hret o Ho)) 0%Z m)
    as (m' & t & E & T & N & C & D).
  rewrite <- postNotification_unfold in E.
  exists m', t; rewrite E, count_up_exact by exact Hfit.
  repeat split; try assumption.
  - rewrite <- (foreach_dispatch_center notify name notify_center
                  (_keyObservers (center m)) 0%Z m).
    rewrite <- postNotification_unfold, E; reflexivity.
Qed.

(** C2. [postNotificationWithObject(name, object)] on a center whose
    object observers are [pre ++ b :: post], where [b] is registered for
    [name] and casts to a type other than the object's, and the observers
    for [name] before [b] accept the object and return: [b] throws the
    NotificationError for an invalid type without its bound function being
    called, the error leaves the post call, [notify] was entered on the
    matching observers of [pre] in order (their functions were called) and
    then on [b], and on no observer of [post]. *)
Theorem postNotificationWithObject_type_mismatch_aborts (name : string)
    (object : any) (m : Machine) (pre post : list Observer) (b : Observer)
    (T : type_info) :
  _objectObservers (center m) = pre ++ b :: post ->
  notificationName b = name ->
  expected_type b = Some T ->
  T <> any_type object ->
  (forall o, In o (matching name pre) -> accepts object o) ->
  exists m' t,
    postNotificationWithObject name object m
    = (m', Throw (NotificationError (arg invalid_type_format name)))
    /\ center m' = center m
    /\ trace m' = trace m ++ t
    /\ notified t = matching name pre ++ [b]
    /\ called t = matching name pre.
Proof.
  intros Hobs Hname Ht Hne Hpre.
  assert (Hb : fails_with (fun o => notify_object o object)
                 (NotificationError (arg invalid_type_format name)) [] b).
  { intros m0; rewrite (notify_object_mismatch b object T m0 Ht Hne).
    unfold notificationName in Hname; rewrite Hname.
    eexists _, [Notified b]; simpl; auto. }
  assert (Eb : String.eqb (notificationName b) name = true)
    by (apply String.eqb_eq; exact Hname).
  destruct (foreach_dispatch_throws (fun o => notify_object o object)
              (fun o => [o]) name _ [] b post Eb Hb pre
              (fun o Ho =>
                 match Hpre o Ho with
                 | conj c (conj t r) => notify_object_delivers o object c t r
                 end) 0%Z m)
    as (m' & t & E & Tr & N & C & D).
  rewrite <- Hobs, <- postNotificationWithObject_unfold in E.
  exists m', t; rewrite E.
  rewrite flat_map_singleton, app_nil_r in C.
  repeat split; try assumption.
  rewrite <- (foreach_dispatch_center (fun o => notify_object o object) name
                (fun o m0 => notify_object_center o object m0)
                (_objectObservers (center m)) 0%Z m).
  rewrite <- postNotificationWithObject_unfold, E; reflexivity.
Qed.

(** C9. [postNotification(name)] raises nothing of its own: it returns
    its count whenever the callbacks of the key observers registered for
    [name] return,
    and an exception that leaves it is one that the bound function of a
    key observer registered for [name] threw. *)
Theorem postNotification_raises_only_what_callbacks_raise (name : string)
    (m : Machine) :
  ((forall o, In o (matching name (_keyObservers (center m))) ->
               callbacks_return o) ->
   exists m' count, postNotification name m = (m', Return count))
  /\ (forall m' e, postNotification name m = (m', Throw e) ->
      exists o f w,
        In o (matching name (_keyObservers (center m)))
        /\ dynamic_class o = IsKeyObserver f
        /\ snd (f w) = Some e).
Proof.
  split.
  - intros Hret.
    destruct (foreach_dispatch_returns notify key_calls name
                (_keyObservers (center m))
                (fun o Ho => notify_delivers o (Hret o Ho)) 0%Z m)
      as (m' & t & E & _).
    rewrite <- postNotification_unfold in E.
    exists m'; eexists; exact E.
  - intros m' e H; rewrite postNotification_unfold in H.
    destruct (foreach_dispatch_throw_inv notify name e _ _ _ _ H)
      as (o & m0 & m1 & Hin & Ho).
    destruct (notify_throw_inv o m0 m1 e Ho) as (f & Hc & Hf).
    exists o, f, (world m0); auto.
Qed.

Lemma containsObserver_eq (observer : pointer) (m : Machine) :
  containsObserver observer m
  = (m, Return (contains_loop (_keyObservers (center m)) observer
                || contains_loop (_objectObservers (center m)) observer)).
Proof.
  unfold containsObserver, bind, get_center, ret.
  destruct (contains_loop (_keyObservers (center m)) observer);
    [reflexivity|].
  destruct (contains_loop (_objectObservers (center m)) observer);
    reflexivity.
Qed.

(** C10. [postNotification], [postNotificationWithObject] and
    [containsObserver] leave both vectors of the center as they were,
    whether the post returns or throws. *)
Theorem posts_and_containsObserver_keep_the_center (name : string)
    (object : any) (observer : pointer) (m : Machine) :
  center (fst (postNotification name m)) = center m
  /\ center (fst (postNotificationWithObject name object m)) = center m
  /\ center (fst (containsObserver observer m)) = center m.
Proof.
  split; [|split].
  - rewrite postNotification_unfold.
    apply foreach_dispatch_center; exact notify_center.
  - rewrite postNotificationWithObject_unfold.
    apply foreach_dispatch_center; intros o m0; apply notify_object_center.
  - rewrite containsObserver_eq; reflexivity.
Qed.

Lemma machine_eta (m : Machine) :
  {| center := center m; world := world m; trace := trace m |} = m.
Proof. destruct m; reflexivity. Qed.

Lemma center_eta (c : NotificationCenter) :
  {| _keyObservers := _keyObservers c;
     _objectObservers := _objectObservers c |} = c.
Proof. destruct c; reflexivity. Qed.

Lemma foreach_remove (observer : pointer) :
  forall observers to_keep m,
    BOOST_FOREACH observers (remove_body observer) to_keep m
    = ({| center := center m; world := world m;
          trace := trace m ++ map Deleted (owned_by observer observers) |},
       Return (to_keep ++ not_owned_by observer observers)).
Proof.
  induction observers as [|o rest IH]; intros to_keep m.
  - simpl; rewrite !app_nil_r, machine_eta; reflexivity.
  - rewrite foreach_cons; unfold remove_body at 1, owned_by, not_owned_by.
    simpl filter.
    destruct (Observer_containsObserver o observer); simpl negb; cbv iota.
    + unfold delete, bind, log, ret; rewrite IH; simpl.
      rewrite <- app_assoc; reflexivity.
    + unfold ret at 1; rewrite IH, <- app_assoc; reflexivity.
Qed.

Lemma removeObserver_eq (observer : pointer) (m : Machine) :
  removeObserver observer m
  = ({| center :=
          {| _keyObservers :=
               not_owned_by observer (_keyObservers (center m));
             _objectObservers :=
               not_owned_by observer (_objectObservers (center m)) |};
        world := world m;
        trace := trace m
                 ++ map Deleted
                      (owned_by observer (_keyObservers (center m))
                       ++ owned_by observer (_objectObservers (center m))) |},
     Return tt).
Proof.
  unfold removeObserver, bind at 1, get_center at 1.
  unfold bind at 1; rewrite foreach_remove.
  unfold bind at 1, set_center at 1; simpl.
  unfold bind at 1, get_center at 1; simpl.
  unfold bind at 1; rewrite foreach_remove; simpl.
  unfold set_center; simpl.
  rewrite map_app, app_assoc; reflexivity.
Qed.

Lemma contains_loop_existsb (observer : pointer) (observers : list Observer) :
  contains_loop observers observer
  = existsb (fun o => Observer_containsObserver o observer) observers.
Proof.
  induction observers as [|o rest IH]; simpl; [reflexivity|].
  rewrite IH; destruct (Observer_containsObserver o observer); reflexivity.
Qed.

Lemma contains_loop_true (observer : pointer) (observers : list Observer) :
  contains_loop observers observer = true
  <-> exists o, In o observers /\ _observer o = observer.
Proof.
  rewrite contains_loop_existsb, existsb_exists.
  unfold Observer_containsObserver.
  split; intros (o & Hin & H); exists o; split; auto.
  - symmetry; apply Z.eqb_eq; exact H.
  - apply Z.eqb_eq; symmetry; exact H.
Qed.

Lemma contains_loop_not_owned (observer : pointer)
    (observers : list Observer) :
  contains_loop (not_owned_by observer observers) observer = false.
Proof.
  rewrite contains_loop_existsb; unfold not_owned_by.
  induction observers as [|o rest IH]; simpl; [reflexivity|].
  destruct (Observer_containsObserver o observer) eqn:E; simpl;
    [exact IH | rewrite E; exact IH].
Qed.

Lemma owned_by_none (observer : pointer) (observers : list Observer) :
  (forall o, In o observers -> _observer o <> observer) ->
  owned_by observer observers = []
  /\ not_owned_by observer observers = observers.
Proof.
  unfold owned_by, not_owned_by, Observer_containsObserver.
  induction observers as [|o rest IH]; intros H; simpl; [auto|].
  destruct (Z.eqb_spec observer (_observer o)) as [E|E].
  - exfalso; apply (H o (in_eq _ _)); congruence.
  - simpl; destruct (IH (fun o' Ho' => H o' (in_cons _ _ _ Ho'))) as [-> ->].
    auto.
Qed.

Lemma not_owned_by_filter (observer : pointer) observers :
  not_owned_by observer observers
  = filter (fun o => negb (_observer o =? observer)%Z) observers.
Proof.
  unfold not_owned_by, Observer_containsObserver.
  apply filter_ext; intros o; rewrite Z.eqb_sym; reflexivity.
Qed.

Lemma owned_by_filter (observer : pointer) observers :
  owned_by observer observers
  = filter (fun o => (_observer o =? observer)%Z) observers.
Proof.
  unfold owned_by, Observer_containsObserver.
  apply filter_ext; intros o; rewrite Z.eqb_sym; reflexivity.
Qed.

Lemma deleted_map_Deleted (l : list Observer) : deleted (map Deleted l) = l.
Proof. induction l; simpl; congruence. Qed.

Lemma notified_map_Deleted (l : list Observer) :
  notified (map Deleted l) = [].
Proof. induction l; simpl; congruence. Qed.

Lemma called_map_Deleted (l : list Observer) : called (map Deleted l) = [].
Proof. induction l; simpl; congruence. Qed.

(** C4. [removeObserver(observer)] always returns.  It keeps, in each
    vector and in their order, exactly the observers whose owner pointer
    [_observer] differs from [observer], whatever their notification
    names: no observer left in either vector has that owner, and every
    observer with another owner that was in a vector is still in it.  It
    deletes exactly the observers whose owner pointer is [observer], key
    observers first.  The owners' world is untouched and no observer is
    notified; afterwards [containsObserver(observer)] is false; and when
    no stored observer has that owner nothing changes at all. *)
Theorem removeObserver_removes_the_owner_everywhere (observer : pointer)
    (m : Machine) :
  exists m' t,
    removeObserver observer m = (m', Return tt)
    /\ _keyObservers (center m')
       = filter (fun o => negb (_observer o =? observer)%Z)
           (_keyObservers (center m))
    /\ _objectObservers (center m')
       = filter (fun o => negb (_observer o =? observer)%Z)
           (_objectObservers (center m))
    /\ (forall o,
          In o (_keyObservers (center m') ++ _objectObservers (center m')) ->
          _observer o <> observer)
    /\ (forall o,
          _observer o <> observer ->
          (In o (_keyObservers (center m)) ->
           In o (_keyObservers (center m')))
          /\ (In o (_objectObservers (center m)) ->
              In o (_objectObservers (center m'))))
    /\ world m' = world m
    /\ trace m' = trace m ++ t
    /\ deleted t
       = filter (fun o => (_observer o =? observer)%Z)
           (_keyObservers (center m))
         ++ filter (fun o => (_observer o =? observer)%Z)
              (_objectObservers (center m))
    /\ (forall o, In o (deleted t) -> _observer o = observer)
    /\ notified t = [] /\ called t = []
    /\ containsObserver observer m' = (m', Return false)
    /\ ((forall o,
           In o (_keyObservers (center m) ++ _objectObservers (center m)) ->
           _observer o <> observer) ->
        m' = m).
Proof.
  rewrite removeObserver_eq; eexists _, _.
  split; [reflexivity|]; simpl.
  rewrite deleted_map_Deleted, notified_map_Deleted, called_map_Deleted.
  rewrite <- !not_owned_by_filter, <- !owned_by_filter.
  split; [reflexivity|]. split; [reflexivity|].
  split.
  { intros o H E; rewrite !not_owned_by_filter in H.
    apply in_app_or in H as [H | H]; apply filter_In in H as [_ H];
      rewrite E, Z.eqb_refl in H; discriminate H. }
  split.
  { intros o Hne; split; intros Hin; rewrite not_owned_by_filter;
      apply filter_In; (split; [exact Hin|]);
      destruct (Z.eqb_spec (_observer o) observer);
      try contradiction; reflexivity. }
  split; [reflexivity|]. split; [reflexivity|]. split; [reflexivity|].
  split.
  { intros o H; rewrite !owned_by_filter in H.
    apply in_app_or in H as [H | H]; apply filter_In in H as [_ H];
      apply Z.eqb_eq; exact H. }
  split; [reflexivity|]. split; [reflexivity|].
  split.
  { rewrite containsObserver_eq; simpl.
    rewrite !contains_loop_not_owned; reflexivity. }
  intros H.
  destruct (owned_by_none observer (_keyObservers (center m))
              (fun o Ho => H o (in_or_app _ _ _ (or_introl Ho))))
    as [-> ->].
  destruct (owned_by_none observer (_objectObservers (center m))
              (fun o Ho => H o (in_or_app _ _ _ (or_intror Ho))))
    as [-> ->].
  simpl; rewrite app_nil_r, center_eta, machine_eta; reflexivity.
Qed.

(** C6. [containsObserver(observer)] returns true exactly when some
    observer of either vector has [observer] as its owner pointer, and it
    leaves the machine (center, world and trace) as it was. *)
Theorem containsObserver_iff_an_owner_matches (observer : pointer)
    (m : Machine) :
  exists found : bool,
    containsObserver observer m = (m, Return found)
    /\ (found = true <->
        exists o,
          In o (_keyObservers (center m) ++ _objectObservers (center m))
          /\ _observer o = observer).
Proof.
  rewrite containsObserver_eq; eexists; split; [reflexivity|].
  rewrite orb_true_iff, !contains_loop_true.
  split.
  - intros [(o & Hin & H) | (o & Hin & H)]; exists o; split; auto;
      apply in_or_app; auto.
  - intros (o & Hin & H); apply in_app_or in Hin as [Hin | Hin];
      [left | right]; exists o; auto.
Qed.

Lemma foreach_collect :
  forall observers keys m,
    BOOST_FOREACH observers collect_key keys m
    = (m, Return (keys ++ map quoted_key observers)).
Proof.
  induction observers as [|o rest IH]; intros keys m.
  - simpl; rewrite app_nil_r; reflexivity.
  - rewrite foreach_cons; unfold collect_key at 1, ret at 1.
    rewrite IH, <- app_assoc; reflexivity.
Qed.

(** C3. The destructor returns silently when both vectors are empty.
    When either holds an observer it throws a NotificationError whose
    message is the leak format filled with the total number of stored
    observers (which fits an [unsigned int]) and the joined list of the
    quoted notification names, key observers first, in stored order. *)
Theorem destructor_reports_leaked_observers (m : Machine) :
  (_keyObservers (center m) = [] /\ _objectObservers (center m) = [] ->
   NotificationCenter_destructor m = (m, Return tt))
  /\ (_keyObservers (center m) <> [] \/ _objectObservers (center m) <> [] ->
      (size (_keyObservers (center m) ++ _objectObservers (center m))
       < UINT_MODULUS)%Z ->
      NotificationCenter_destructor m
      = (m, Throw (NotificationError
                     (arg2 leak_format
                        (size (_keyObservers (center m)
                               ++ _objectObservers (center m)))
                        (join
                           (map quoted_key
                              (_keyObservers (center m)
                               ++ _objectObservers (center m)))
                           ", "))))).
Proof.
  unfold NotificationCenter_destructor, bind at 1, get_center at 1.
  split.
  - intros [-> ->]; reflexivity.
  - intros Hne Hfit.
    assert (E : negb (empty (_keyObservers (center m)))
                || negb (empty (_objectObservers (center m))) = true).
    { destruct (_keyObservers (center m)), (_objectObservers (center m));
        simpl; try reflexivity.
      destruct Hne as [H | H]; contradiction H; reflexivity. }
    unfold bind at 1, get_center at 1; rewrite E.
    unfold bind at 1; rewrite foreach_collect.
    unfold bind at 1; rewrite foreach_collect.
    unfold throw; simpl app; rewrite <- map_app.
    assert (S : uint (size (_keyObservers (center m))
                      + size (_objectObservers (center m)))
                = size (_keyObservers (center m)
                        ++ _objectObservers (center m))).
    { unfold size in *; rewrite length_app, Nat2Z.inj_add in *.
      unfold uint; apply Z.mod_small; lia. }
    rewrite S; reflexivity.
Qed.

Lemma addObserver_eq (o : Observer) (m : Machine) :
  addObserver o m
  = ({| center :=
          match observerType o with
          | KEY_OBSERVER =>
              {| _keyObservers := _keyObservers (center m) ++ [o];
                 _objectObservers := _objectObservers (center m) |}
          | OBJECT_OBSERVER =>
              {| _keyObservers := _keyObservers (center m);
                 _objectObservers := _objectObservers (center m) ++ [o] |}
          end;
        world := world m; trace := trace m |},
     Return tt).
Proof.
  unfold addObserver, bind, get_center, set_center.
  destruct (observerType o); reflexivity.
Qed.

Lemma foreach_dispatch_no_match (deliver : Observer -> M unit)
    (name : string) :
  forall observers c m,
    matching name observers = [] ->
    BOOST_FOREACH observers (dispatch_body deliver name) c m = (m, Return c).
Proof.
  induction observers as [|o rest IH]; intros c m H; [reflexivity|].
  rewrite foreach_cons.
  destruct (String.eqb (notificationName o) name) eqn:E.
  - rewrite matching_cons_hit in H by exact E; discriminate H.
  - rewrite matching_cons_miss in H by exact E.
    rewrite dispatch_body_miss by exact E; apply IH; exact H.
Qed.

Lemma matching_not_owned_by (name : string) (observer : pointer)
    (observers : list Observer) :
  matching name observers = [] ->
  matching name (not_owned_by observer observers) = [].
Proof.
  unfold matching, not_owned_by.
  induction observers as [|o rest IH]; simpl; [reflexivity|].
  destruct (String.eqb (notificationName o) name) eqn:E; [discriminate|].
  intros H; destruct (negb (Observer_containsObserver o observer)); simpl;
    rewrite ?E; apply IH; exact H.
Qed.

Lemma not_owned_by_app (observer : pointer) (l1 l2 : list Observer) :
  not_owned_by observer (l1 ++ l2)
  = not_owned_by observer l1 ++ not_owned_by observer l2.
Proof. apply filter_app. Qed.

Lemma not_owned_by_owner (o : Observer) :
  not_owned_by (_observer o) [o] = [].
Proof.
  unfold not_owned_by, Observer_containsObserver; simpl.
  rewrite Z.eqb_refl; reflexivity.
Qed.

Lemma postNotification_returns (name : string) (m : Machine) :
  (forall o, In o (matching name (_keyObservers (center m))) ->
             callbacks_return o) ->
  exists m' t,
    postNotification name m
    = (m', Return (uint (size (matching name (_keyObservers (center m))))))
    /\ trace m' = trace m ++ t
    /\ notified t = matching name (_keyObservers (center m)).
Proof.
  intros Hret.
  destruct (foreach_dispatch_returns notify key_calls name
              (_keyObservers (center m))
              (fun o Ho => notify_delivers o (Hret o Ho)) 0%Z m)
    as (m' & t & E & T & N & _).
  rewrite <- postNotification_unfold in E.
  rewrite count_up_uint in E by (unfold UINT_MODULUS; lia).
  exists m', t; auto.
Qed.

Lemma postNotificationWithObject_returns (name : string) (object : any)
    (m : Machine) :
  (forall o, In o (matching name (_objectObservers (center m))) ->
             accepts object o) ->
  exists m' t,
    postNotificationWithObject name object m
    = (m', Return (uint (size (matching name
                                 (_objectObservers (center m))))))
    /\ trace m' = trace m ++ t
    /\ notified t = matching name (_objectObservers (center m))
    /\ called t = matching name (_objectObservers (center m)).
Proof.
  intros Hacc.
  destruct (foreach_dispatch_returns (fun o => notify_object o object)
              (fun o => [o]) name (_objectObservers (center m))
              (fun o Ho =>
                 match Hacc o Ho with
                 | conj c (conj t r) => notify_object_delivers o object c t r
                 end) 0%Z m)
    as (m' & t & E & T & N & C & _).
  rewrite <- postNotificationWithObject_unfold in E.
  rewrite count_up_uint in E by (unfold UINT_MODULUS; lia).
  rewrite flat_map_singleton in C.
  exists m', t; auto.
Qed.

Lemma uint_small (n : Z) : (0 <= n < UINT_MODULUS)%Z -> uint n = n.
Proof. intros H; unfold uint; apply Z.mod_small; exact H. Qed.

Lemma size_nonneg {A : Type} (l : list A) : (0 <= size l)%Z.
Proof. unfold size; lia. Qed.

Lemma size_app {A : Type} (l1 l2 : list A) :
  size (l1 ++ l2) = (size l1 + size l2)%Z.
Proof. unfold size; rewrite length_app; lia. Qed.

Lemma notify_fails (b : Observer) (f : callback) (e : exception) :
  dynamic_class b = IsKeyObserver f ->
  (forall w, snd (f w) = Some e) ->
  fails_with notify e [b] b.
Proof.
  intros Hc Hf m; unfold notify, bind, log, run, ret; simpl.
  rewrite Hc; simpl. specialize (Hf (world m)).
  destruct (f (world m)) as [w thrown]; simpl in Hf; subst thrown.
  eexists _, [Notified b; Called b None]; simpl.
  rewrite <- app_assoc; auto.
Qed.

Lemma notify_object_fails (b : Observer) (object : any) (T : type_info) :
  expected_type b = Some T ->
  T <> any_type object ->
  fails_with (fun o => notify_object o object)
    (NotificationError (arg invalid_type_format (_notificationName b))) [] b.
Proof.
  intros Ht Hne m; rewrite (notify_object_mismatch b object T m Ht Hne).
  eexists _, [Notified b]; simpl; auto.
Qed.

(** C7. Two observers with the same owner pointer and the same
    notification name are both registered: [addObserver] checks nothing
    and appends each to the vector of its type.  When both are key
    observers, a later [postNotification(name)] (the callbacks of the
    observers for [name] returning, their number fitting an
    [unsigned int]) enters [notify()] on the earlier observers for [name]
    and then on both, and counts both; likewise
    [postNotificationWithObject] for two object observers that accept
    the object. *)
Theorem duplicate_registrations_are_kept_and_both_notified
    (o1 o2 : Observer) (name : string) (object : any) (m : Machine) :
  _observer o1 = _observer o2 ->
  notificationName o1 = name ->
  notificationName o2 = name ->
  exists m2,
    (addObserver o1 ;; addObserver o2) m = (m2, Return tt)
    /\ world m2 = world m
    /\ trace m2 = trace m
    /\ _keyObservers (center m2)
       = _keyObservers (center m) ++ of_type KEY_OBSERVER [o1; o2]
    /\ _objectObservers (center m2)
       = _objectObservers (center m) ++ of_type OBJECT_OBSERVER [o1; o2]
    /\ (observerType o1 = KEY_OBSERVER ->
        observerType o2 = KEY_OBSERVER ->
        (forall o, In o (matching name (_keyObservers (center m2))) ->
                   callbacks_return o) ->
        (size (matching name (_keyObservers (center m2))) < UINT_MODULUS)%Z ->
        exists m3 t,
          postNotification name m2
          = (m3, Return (size (matching name (_keyObservers (center m)))
                         + 2)%Z)
          /\ trace m3 = trace m2 ++ t
          /\ notified t
             = matching name (_keyObservers (center m)) ++ [o1; o2])
    /\ (observerType o1 = OBJECT_OBSERVER ->
        observerType o2 = OBJECT_OBSERVER ->
        (forall o, In o (matching name (_objectObservers (center m2))) ->
                   accepts object o) ->
        (size (matching name (_objectObservers (center m2)))
         < UINT_MODULUS)%Z ->
        exists m3 t,
          postNotificationWithObject name object m2
          = (m3, Return (size (matching name (_objectObservers (center m)))
                         + 2)%Z)
          /\ trace m3 = trace m2 ++ t
          /\ notified t
             = matching name (_objectObservers (center m)) ++ [o1; o2]
          /\ called t
             = matching name (_objectObservers (center m)) ++ [o1; o2]).
Proof.
  intros Howner H1 H2.
  assert (E1 : String.eqb (notificationName o1) name = true)
    by (apply String.eqb_eq; exact H1).
  assert (E2 : String.eqb (notificationName o2) name = true)
    by (apply String.eqb_eq; exact H2).
  assert (Hits : matching name [o1; o2] = [o1; o2])
    by (unfold matching; simpl; rewrite E1, E2; reflexivity).
  unfold bind; rewrite addObserver_eq, addObserver_eq; eexists.
  split; [reflexivity|]; simpl.
  split; [reflexivity|]. split; [reflexivity|].
  unfold of_type; simpl.
  split; [|split; [|split]].
  - destruct (observerType o1), (observerType o2); simpl;
      rewrite <- ?app_assoc, ?app_nil_r; reflexivity.
  - destruct (observerType o1), (observerType o2); simpl;
      rewrite <- ?app_assoc, ?app_nil_r; reflexivity.
  - intros -> ->; simpl; rewrite <- app_assoc; simpl.
    set (m2 := {| center := _; world := _; trace := _ |}).
    intros Hret Hfit.
    destruct (postNotification_returns name m2 Hret) as (m3 & t & E & T & N).
    subst m2; simpl in E, T, N.
    rewrite uint_small in E by (split; [apply size_nonneg | exact Hfit]).
    rewrite matching_app, Hits in E, N.
    rewrite size_app in E.
    exists m3, t; auto.
  - intros -> ->; simpl; rewrite <- app_assoc; simpl.
    set (m2 := {| center := _; world := _; trace := _ |}).
    intros Hacc Hfit.
    destruct (postNotificationWithObject_returns name object m2 Hacc)
      as (m3 & t & E & T & N & C).
    subst m2; simpl in E, T, N, C.
    rewrite uint_small in E by (split; [apply size_nonneg | exact Hfit]).
    rewrite matching_app, Hits in E, N, C.
    rewrite size_app in E.
    exists m3, t; auto.
Qed.

Lemma postNotification_center (name : string) (m : Machine) :
  center (fst (postNotification name m)) = center m.
Proof.
  rewrite postNotification_unfold.
  apply foreach_dispatch_center; exact notify_center.
Qed.

Lemma postNotificationWithObject_center (name : string) (object : any)
    (m : Machine) :
  center (fst (postNotificationWithObject name object m)) = center m.
Proof.
  rewrite postNotificationWithObject_unfold.
  apply foreach_dispatch_center; intros o m0; apply notify_object_center.
Qed.

Lemma matching_after_round_trip (name : string) (o : Observer)
    (observers : list Observer) :
  matching name observers = [] ->
  matching name (not_owned_by (_observer o) (observers ++ [o])) = [].
Proof.
  intros H.
  rewrite not_owned_by_app, not_owned_by_owner, app_nil_r.
  apply matching_not_owned_by; exact H.
Qed.

(** C8. Round trip.  An observer [o] for [name] is added to a center
    that holds no observer for [name]; [name] is posted (whether that
    post returns or throws); the owner of [o] is removed; then a second
    post of [name] returns 0 and notifies nobody.  This holds for
    [postNotification] and for [postNotificationWithObject]. *)
Theorem register_post_remove_post_counts_zero (o : Observer) (name : string)
    (object : any) (m : Machine) :
  notificationName o = name ->
  matching name (_keyObservers (center m)) = [] ->
  matching name (_objectObservers (center m)) = [] ->
  (let m1 := fst (addObserver o m) in
   let m2 := fst (postNotification name m1) in
   let m3 := fst (removeObserver (_observer o) m2) in
   postNotification name m3 = (m3, Return 0%Z))
  /\ (let m1 := fst (addObserver o m) in
      let m2 := fst (postNotificationWithObject name object m1) in
      let m3 := fst (removeObserver (_observer o) m2) in
      postNotificationWithObject name object m3 = (m3, Return 0%Z)).
Proof.
  intros Hname Hkey Hobj; cbv zeta; split.
  - rewrite postNotification_unfold.
    apply foreach_dispatch_no_match.
    rewrite removeObserver_eq; simpl.
    rewrite postNotification_center, addObserver_eq; simpl.
    destruct (observerType o); simpl.
    + apply matching_after_round_trip; exact Hkey.
    + apply matching_not_owned_by; exact Hkey.
  - rewrite postNotificationWithObject_unfold.
    apply foreach_dispatch_no_match.
    rewrite removeObserver_eq; simpl.
    rewrite postNotificationWithObject_center, addObserver_eq; simpl.
    destruct (observerType o); simpl.
    + apply matching_not_owned_by; exact Hobj.
    + apply matching_after_round_trip; exact Hobj.
Qed.

(** ** Further properties of the notification center *)

#[local] Abbreviation call := (@call World).

Lemma notify_with_center (c : NotificationCenter) o m :
  notify o (with_center c m)
  = (with_center c (fst (notify o m)), snd (notify o m)).
Proof.
  unfold notify, with_center, bind, log, run, ret; simpl.
  destruct (dynamic_class o) as [f|T g h]; simpl; [|reflexivity].
  destruct (f (world m)) as [w [e|]]; reflexivity.
Qed.

Lemma notify_object_with_center (c : NotificationCenter) o (object : any) m :
  notify_object o object (with_center c m)
  = (with_center c (fst (notify_object o object m)),
     snd (notify_object o object m)).
Proof.
  unfold notify_object, with_center, try_catch_bad_any_cast, call_function,
    any_cast, bind, log, run, ret, throw; simpl.
  destruct (dynamic_class o) as [f|T [f|] [g|]]; simpl; try reflexivity;
    match goal with
    | |- context [type_info_eqb ?a ?b] => destruct (type_info_eqb a b)
    end; simpl; try reflexivity;
    match goal with
    | |- context [?h (any_content object) (world m)] =>
        destruct (h (any_content object) (world m)) as [w [[]|]]
    end; reflexivity.
Qed.

Lemma foreach_dispatch_with_center (deliver : Observer -> M unit)
    (name : string) (c : NotificationCenter) :
  (forall o m,
     deliver o (with_center c m)
     = (with_center c (fst (deliver o m)), snd (deliver o m))) ->
  forall observers count m,
    BOOST_FOREACH observers (dispatch_body deliver name) count
      (with_center c m)
    = (with_center c
         (fst (BOOST_FOREACH observers (dispatch_body deliver name) count m)),
       snd (BOOST_FOREACH observers (dispatch_body deliver name) count m)).
Proof.
  intros Hd; induction observers as [|o rest IH]; intros count m;
    [reflexivity|].
  rewrite !foreach_cons.
  destruct (String.eqb (notificationName o) name) eqn:E.
  - rewrite !dispatch_body_hit by exact E. rewrite Hd.
    destruct (deliver o m) as [m1 [[]|e]]; simpl; [apply IH | reflexivity].
  - rewrite !dispatch_body_miss by exact E. apply IH.
Qed.

Lemma with_center_same m1 m2 :
  world m1 = world m2 -> trace m1 = trace m2 ->
  m1 = with_center (center m1) m2.
Proof.
  destruct m1, m2; unfold with_center; simpl; intros -> ->; reflexivity.
Qed.

(** X1. Each post reads its own vector only: on two machines with the
    same world and trace, [postNotification] ends in the same outcome,
    world and trace whenever the key observers agree, whatever the object
    observers are, and [postNotificationWithObject] likewise whenever
    the object observers agree. *)
Theorem posts_read_their_own_vector_only (name : string) (object : any)
    (m1 m2 : Machine) :
  world m1 = world m2 ->
  trace m1 = trace m2 ->
  (_keyObservers (center m1) = _keyObservers (center m2) ->
   postNotification name m1
   = (with_center (center m1) (fst (postNotification name m2)),
      snd (postNotification name m2)))
  /\ (_objectObservers (center m1) = _objectObservers (center m2) ->
      postNotificationWithObject name object m1
      = (with_center (center m1)
           (fst (postNotificationWithObject name object m2)),
         snd (postNotificationWithObject name object m2))).
Proof.
  intros Hw Ht; split; intros Hv.
  - rewrite !postNotification_unfold, Hv.
    rewrite (with_center_same m1 m2 Hw Ht) at 1.
    apply foreach_dispatch_with_center; intros o m.
    apply notify_with_center.
  - rewrite !postNotificationWithObject_unfold, Hv.
    rewrite (with_center_same m1 m2 Hw Ht) at 1.
    apply (foreach_dispatch_with_center (fun o => notify_object o object)).
    intros o m; apply notify_object_with_center.
Qed.

Lemma notify_returns_explicit o m :
  callbacks_return o ->
  notify o m
  = ({| center := center m;
        world := key_effect o (world m);
        trace := trace m ++ key_events o |},
     Return tt).
Proof.
  unfold callbacks_return, key_effect, key_events, notify, bind, log, run,
    ret; simpl.
  destruct (dynamic_class o) as [f|T g h]; simpl; intros H.
  - specialize (H (world m)).
    destruct (f (world m)) as [w thrown]; simpl in *; subst thrown.
    rewrite <- app_assoc; reflexivity.
  - reflexivity.
Qed.

Lemma foreach_notify_explicit (name : string) :
  forall observers,
    (forall o, In o (matching name observers) -> callbacks_return o) ->
    forall count m,
      BOOST_FOREACH observers (dispatch_body notify name) count m
      = ({| center := center m;
            world := fold_left (fun w o => key_effect o w)
                       (matching name observers) (world m);
            trace := trace m ++ flat_map key_events (matching name observers)
          |},
         Return (count_up count (List.length (matching name observers)))).
Proof.
  induction observers as [|o rest IH]; intros H count m.
  - simpl; rewrite app_nil_r, machine_eta; reflexivity.
  - rewrite foreach_cons.
    destruct (String.eqb (notificationName o) name) eqn:E.
    + rewrite matching_cons_hit in * by exact E.
      rewrite dispatch_body_hit by exact E.
      rewrite notify_returns_explicit by (apply H; left; reflexivity).
      rewrite IH by (intros o' Ho'; apply H; right; exact Ho').
      simpl; rewrite <- app_assoc; reflexivity.
    + rewrite matching_cons_miss in * by exact E.
      rewrite dispatch_body_miss by exact E.
      apply IH; exact H.
Qed.

(** X2. When the callbacks of the key observers registered for [name]
    return, [postNotification(name)] runs them on the world one after the
    other in registration order, enters each [notify()] and calls each
    bound function in that order, and returns their number as an
    [unsigned int], that is modulo 2^32. *)
Theorem postNotification_runs_callbacks_in_order (name : string) m :
  (forall o, In o (matching name (_keyObservers (center m))) ->
             callbacks_return o) ->
  postNotification name m
  = ({| center := center m;
        world := fold_left (fun w o => key_effect o w)
                   (matching name (_keyObservers (center m))) (world m);
        trace := trace m
                 ++ flat_map key_events
                      (matching name (_keyObservers (center m))) |},
     Return (size (matching name (_keyObservers (center m)))
             mod UINT_MODULUS)%Z).
Proof.
  intros H; rewrite postNotification_unfold, foreach_notify_explicit
    by exact H.
  rewrite count_up_uint by (unfold UINT_MODULUS; lia).
  reflexivity.
Qed.

Lemma foreach_app {A L : Type} (l1 l2 : list A) (body : A -> L -> M L) :
  forall (locals : L) m,
    BOOST_FOREACH (l1 ++ l2) body locals m
    = match BOOST_FOREACH l1 body locals m with
      | (m1, Return locals1) => BOOST_FOREACH l2 body locals1 m1
      | (m1, Throw e) => (m1, Throw e)
      end.
Proof.
  induction l1 as [|x rest IH]; intros locals m; [reflexivity|].
  simpl app; rewrite !foreach_cons.
  destruct (body x locals m) as [m1 [locals1|e]]; [apply IH | reflexivity].
Qed.

Lemma notify_object_returns_explicit o (object : any) m :
  accepts object o ->
  notify_object o object m
  = ({| center := center m;
        world := object_effect object o (world m);
        trace := trace m ++ object_events object o |},
     Return tt).
Proof.
  intros (Hc & Ht & Hr).
  destruct Hc as [p f n | p T f n | p T f n | p T f n | p T f n];
    try discriminate Ht;
    unfold expected_type in Ht; simpl in Ht; injection Ht as Ht;
    destruct Hr as [Hr1 Hr2]; simpl in Hr1, Hr2;
    unfold notify_object, try_catch_bad_any_cast, call_function, any_cast,
      object_effect, object_events, bound_function, bind, log, run, ret,
      throw; simpl;
    rewrite <- Ht, type_info_eqb_refl; simpl;
    match goal with
    | |- context [f ?v ?w] =>
        first [ pose proof (Hr1 f eq_refl v w) as Hf
              | pose proof (Hr2 f eq_refl v w) as Hf ];
        destruct (f v w) as [w' thrown]; simpl in Hf; subst thrown
    end;
    simpl; rewrite <- app_assoc; reflexivity.
Qed.

Lemma foreach_notify_object_explicit (name : string) (object : any) :
  forall observers,
    (forall o, In o (matching name observers) -> accepts object o) ->
    forall count m,
      BOOST_FOREACH observers
        (dispatch_body (fun o => notify_object o object) name) count m
      = ({| center := center m;
            world := fold_left (fun w o => object_effect object o w)
                       (matching name observers) (world m);
            trace := trace m
                     ++ flat_map (object_events object)
                          (matching name observers) |},
         Return (count_up count (List.length (matching name observers)))).
Proof.
  induction observers as [|o rest IH]; intros H count m.
  - simpl; rewrite app_nil_r, machine_eta; reflexivity.
  - rewrite foreach_cons.
    destruct (String.eqb (notificationName o) name) eqn:E.
    + rewrite matching_cons_hit in * by exact E.
      rewrite dispatch_body_hit by exact E.
      rewrite notify_object_returns_explicit by (apply H; left; reflexivity).
      rewrite IH by (intros o' Ho'; apply H; right; exact Ho').
      simpl; rewrite <- app_assoc; reflexivity.
    + rewrite matching_cons_miss in * by exact E.
      rewrite dispatch_body_miss by exact E.
      apply IH; exact H.
Qed.

Lemma notify_callback_throws b m (f : callback) (w' : World)
    (e : exception) :
  dynamic_class b = IsKeyObserver f ->
  f (world m) = (w', Some e) ->
  notify b m
  = ({| center := center m; world := w';
        trace := trace m ++ [Notified b; Called b None] |},
     Throw e).
Proof.
  intros Hc Hf; unfold notify, bind, log, run, ret; simpl.
  rewrite Hc; simpl; rewrite Hf; simpl.
  rewrite <- app_assoc; reflexivity.
Qed.

Lemma notify_object_callback_throws b (object : any) m (f : Z -> callback)
    (w' : World) (e : exception) :
  expected_type b = Some (any_type object) ->
  bound_function b = Some f ->
  f (any_content object) (world m) = (w', Some e) ->
  notify_object b object m
  = ({| center := center m; world := w';
        trace := trace m ++ object_events object b |},
     Throw match e with
           | bad_any_cast =>
               NotificationError
                 (arg invalid_type_format (_notificationName b))
           | _ => e
           end).
Proof.
  unfold expected_type, bound_function, notify_object,
    try_catch_bad_any_cast, call_function, any_cast, object_events, bind,
    log, run, ret, throw; simpl.
  intros Ht Hb Hf.
  destruct (dynamic_class b) as [g|T [g|] [h|]]; try discriminate;
    injection Ht as Ht; injection Hb as Hb; rewrite Hb;
    rewrite <- Ht, type_info_eqb_refl; simpl; rewrite Hf; simpl;
    rewrite <- app_assoc; destruct e; reflexivity.
Qed.

(** C5, as the code has it.  Both posts return a count only when every
    [notify] of the scan returns, and it is then the number of observers
    registered for the posted name (which fits an [unsigned int]).  When
    the invocation of an observer for that name fails, the earlier ones
    having returned, the post returns no count and ends in the error: the
    exception the bound function of a key observer throws in the world the
    scan has reached; for [postNotificationWithObject], the
    NotificationError of an observer that casts to another type than the
    object's, and the exception the bound function of an object observer
    throws in the world the scan has reached (its own
    [boost::bad_any_cast] leaving as that NotificationError). *)
Theorem post_returns_a_count_only_when_no_notify_throws (name : string)
    (object : any) (m : Machine) :
  ((forall o, In o (matching name (_keyObservers (center m))) ->
              callbacks_return o) ->
   (size (matching name (_keyObservers (center m))) < UINT_MODULUS)%Z ->
   exists m',
     postNotification name m
     = (m', Return (size (matching name (_keyObservers (center m))))))
  /\ ((forall o, In o (matching name (_objectObservers (center m))) ->
                 accepts object o) ->
      (size (matching name (_objectObservers (center m)))
       < UINT_MODULUS)%Z ->
      exists m',
        postNotificationWithObject name object m
        = (m', Return (size (matching name (_objectObservers (center m))))))
  /\ (forall pre b post (f : callback) (w' : World) (e : exception),
        _keyObservers (center m) = pre ++ b :: post ->
        notificationName b = name ->
        dynamic_class b = IsKeyObserver f ->
        (forall o, In o (matching name pre) -> callbacks_return o) ->
        f (fold_left (fun w o => key_effect o w) (matching name pre)
             (world m))
        = (w', Some e) ->
        exists m',
          postNotification name m = (m', Throw e)
          /\ world m' = w' /\ center m' = center m)
  /\ (forall pre b post T,
        _objectObservers (center m) = pre ++ b :: post ->
        notificationName b = name ->
        expected_type b = Some T ->
        T <> any_type object ->
        (forall o, In o (matching name pre) -> accepts object o) ->
        exists m',
          postNotificationWithObject name object m
          = (m', Throw (NotificationError (arg invalid_type_format name))))
  /\ (forall pre b post (f : Z -> callback) (w' : World) (e : exception),
        _objectObservers (center m) = pre ++ b :: post ->
        notificationName b = name ->
        expected_type b = Some (any_type object) ->
        bound_function b = Some f ->
        (forall o, In o (matching name pre) -> accepts object o) ->
        f (any_content object)
          (fold_left (fun w o => object_effect object o w)
             (matching name pre) (world m))
        = (w', Some e) ->
        exists m',
          postNotificationWithObject name object m
          = (m', Throw match e with
                       | bad_any_cast =>
                           NotificationError (arg invalid_type_format name)
                       | _ => e
                       end)
          /\ world m' = w' /\ center m' = center m).
Proof.
  split; [|split; [|split; [|split]]].
  - intros Hret Hfit.
    destruct (postNotification_returns name m Hret) as (m' & t & E & _).
    rewrite uint_small in E by (split; [apply size_nonneg | exact Hfit]).
    exists m'; exact E.
  - intros Hacc Hfit.
    destruct (postNotificationWithObject_returns name object m Hacc)
      as (m' & t & E & _).
    rewrite uint_small in E by (split; [apply size_nonneg | exact Hfit]).
    exists m'; exact E.
  - intros pre b post f w' e Hobs Hname Hc Hpre Hf.
    assert (Eb : String.eqb (notificationName b) name = true)
      by (apply String.eqb_eq; exact Hname).
    rewrite postNotification_unfold, Hobs, foreach_app.
    rewrite foreach_notify_explicit by exact Hpre.
    rewrite foreach_cons, dispatch_body_hit by exact Eb.
    erewrite (notify_callback_throws b _ f w' e Hc); [|exact Hf].
    eexists; split; [reflexivity | split; reflexivity].
  - intros pre b post T Hobs Hname Ht Hne Hpre.
    assert (Eb : String.eqb (notificationName b) name = true)
      by (apply String.eqb_eq; exact Hname).
    pose proof (notify_object_fails b object T Ht Hne) as Hb.
    unfold notificationName in Hname; rewrite Hname in Hb.
    destruct (foreach_dispatch_throws (fun o => notify_object o object)
                (fun o => [o]) name _ [] b post Eb Hb pre
                (fun o Ho =>
                   match Hpre o Ho with
                   | conj c (conj t r) =>
                       notify_object_delivers o object c t r
                   end) 0%Z m)
      as (m' & t & E & _).
    rewrite <- Hobs, <- postNotificationWithObject_unfold in E.
    exists m'; exact E.
  - intros pre b post f w' e Hobs Hname Ht Hb Hpre Hf.
    assert (Eb : String.eqb (notificationName b) name = true)
      by (apply String.eqb_eq; exact Hname).
    rewrite postNotificationWithObject_unfold, Hobs, foreach_app.
    rewrite foreach_notify_object_explicit by exact Hpre.
    rewrite foreach_cons, dispatch_body_hit by exact Eb.
    erewrite (notify_object_callback_throws b object _ f w' e Ht Hb);
      [|exact Hf].
    unfold notificationName in Hname; rewrite Hname.
    eexists; split; [reflexivity | split; reflexivity].
Qed.

(** X3. A key observer whose bound function throws ends the scan of
    [postNotification]: with the key observers [pre ++ b :: post], [b]
    registered for [name] with a function that throws [e], and the
    callbacks of the earlier observers for [name] returning, the post ends
    in [e]; [notify()] was entered on the matching observers of [pre] and
    on [b], whose function was called, and on no observer of [post]; the
    center is as before. *)
Theorem postNotification_callback_exception_aborts (name : string) m
    pre b post (f : callback) (e : exception) :
  _keyObservers (center m) = pre ++ b :: post ->
  notificationName b = name ->
  dynamic_class b = IsKeyObserver f ->
  (forall w, snd (f w) = Some e) ->
  (forall o, In o (matching name pre) -> callbacks_return o) ->
  exists m' t,
    postNotification name m = (m', Throw e)
    /\ center m' = center m
    /\ trace m' = trace m ++ t
    /\ notified t = matching name pre ++ [b]
    /\ called t = flat_map key_calls (matching name pre) ++ [b]
    /\ deleted t = [].
Proof.
  intros Hobs Hname Hc Hf Hpre.
  assert (Eb : String.eqb (notificationName b) name = true)
    by (apply String.eqb_eq; exact Hname).
  destruct (foreach_dispatch_throws notify key_calls name e [b] b post Eb
              (notify_fails b f e Hc Hf) pre
              (fun o Ho => notify_delivers o (Hpre o Ho)) 0%Z m)
    as (m' & t & E & T & N & C & D).
  rewrite <- Hobs, <- postNotification_unfold in E.
  exists m', t; repeat split; try assumption.
  rewrite <- (postNotification_center name m), E; reflexivity.
Qed.

(** X4. Posting a name for which the scanned vector holds no observer,
    an empty vector included, returns 0 and leaves the machine (center,
    world and trace) as it was. *)
Theorem post_without_match_is_silent (name : string) (object : any) m :
  (matching name (_keyObservers (center m)) = [] ->
   postNotification name m = (m, Return 0%Z))
  /\ (matching name (_objectObservers (center m)) = [] ->
      postNotificationWithObject name object m = (m, Return 0%Z)).
Proof.
  split; intros H.
  - rewrite postNotification_unfold.
    apply foreach_dispatch_no_match; exact H.
  - rewrite postNotificationWithObject_unfold.
    apply foreach_dispatch_no_match; exact H.
Qed.

Lemma type_info_eqb_false (a b : type_info) :
  type_info_eqb a b = false -> a <> b.
Proof.
  intros H E; subst b; rewrite type_info_eqb_refl in H; discriminate H.
Qed.

(** X5. An [ObjectObserver] takes exactly the objects of its signature:
    built from a function with a [T2] or [const T2&] parameter its
    [notify(object)] returns if and only if the object holds a [T2]; built
    from a function with a [T2*] parameter, if and only if the object
    holds a [T2*] (the functions themselves returning). *)
Theorem ObjectObserver_takes_exactly_its_signature (p : pointer)
    (T : type_info) (f : Z -> callback) (n : string) (object : any) m :
  (forall v, callback_returns (f v)) ->
  ((exists m', notify_object (ObjectObserver_value p T f n) object m
               = (m', Return tt))
   <-> any_type object = T)
  /\ ((exists m', notify_object (ObjectObserver_pointer p T f n) object m
                  = (m', Return tt))
      <-> any_type object = pointer_to T).
Proof.
  intros Hf.
  unfold notify_object, try_catch_bad_any_cast, call_function, any_cast,
    bind, log, run, ret, throw; simpl.
  split.
  - destruct (type_info_eqb (any_type object) T) eqn:E; simpl.
    + apply type_info_eqb_eq in E; specialize (Hf (any_content object)
        (world m)).
      destruct (f (any_content object) (world m)) as [w thrown];
        simpl in Hf; subst thrown.
      split; [intros _; exact E | intros _; eexists; reflexivity].
    + apply type_info_eqb_false in E.
      split; [intros [m' H]; discriminate H | intros H; contradiction].
  - destruct (type_info_eqb (any_type object) (pointer_to T)) eqn:E; simpl.
    + apply type_info_eqb_eq in E; specialize (Hf (any_content object)
        (world m)).
      destruct (f (any_content object) (world m)) as [w thrown];
        simpl in Hf; subst thrown.
      split; [intros _; exact E | intros _; eexists; reflexivity].
    + apply type_info_eqb_false in E.
      split; [intros [m' H]; discriminate H | intros H; contradiction].
Qed.

(** X6. What the bound function of an [ObjectObserver] throws: a
    [boost::bad_any_cast] of its own is caught by [notify(object)] and
    leaves as the NotificationError for an invalid object type, although
    the object had the right type and the function was called; any other
    exception leaves unchanged.  In both cases the world is as the
    function left it. *)
Theorem ObjectObserver_callback_exceptions (p : pointer) (T : type_info)
    (f : Z -> callback) (n : string) (object : any) m (w : World)
    (e : exception) :
  f (any_content object) (world m) = (w, Some e) ->
  (any_type object = T ->
   notify_object (ObjectObserver_value p T f n) object m
   = ({| center := center m;
         world := w;
         trace := trace m
                  ++ [Notified (ObjectObserver_value p T f n);
                      Called (ObjectObserver_value p T f n)
                        (Some (any_content object))] |},
      Throw match e with
            | bad_any_cast => NotificationError (arg invalid_type_format n)
            | _ => e
            end))
  /\ (any_type object = pointer_to T ->
      notify_object (ObjectObserver_pointer p T f n) object m
      = ({| center := center m;
            world := w;
            trace := trace m
                     ++ [Notified (ObjectObserver_pointer p T f n);
                         Called (ObjectObserver_pointer p T f n)
                           (Some (any_content object))] |},
         Throw match e with
               | bad_any_cast => NotificationError (arg invalid_type_format n)
               | _ => e
               end)).
Proof.
  intros Hf; split; intros Ht;
    unfold notify_object, try_catch_bad_any_cast, call_function, any_cast,
      bind, log, run, ret, throw; simpl;
    rewrite Ht, type_info_eqb_refl; simpl; rewrite Hf; simpl;
    rewrite <- app_assoc; destruct e; reflexivity.
Qed.

Lemma constructed_key_type o :
  constructed o -> observerType o = KEY_OBSERVER -> is_KeyObserver o.
Proof.
  intros [p f n | p T f n | p T f n | p T f n | p T f n] H;
    try discriminate H.
  exists p, f, n; reflexivity.
Qed.

Lemma constructed_object_type o :
  constructed o -> observerType o = OBJECT_OBSERVER -> is_ObjectObserver o.
Proof.
  intros [p f n | p T f n | p T f n | p T f n | p T f n] H;
    try discriminate H; exists p, T, f, n; auto.
Qed.

Lemma Forall_not_owned_by (P : Observer -> Prop) (observer : pointer)
    observers :
  Forall P observers -> Forall P (not_owned_by observer observers).
Proof.
  unfold not_owned_by; intros H; apply Forall_forall; intros o Ho.
  apply filter_In in Ho as [Ho _].
  revert o Ho; apply Forall_forall; exact H.
Qed.

Lemma perform_keeps_sorted (c : call) m :
  registers_constructed c ->
  sorted_by_class (center m) ->
  sorted_by_class (center (perform c m)).
Proof.
  unfold sorted_by_class; intros Hc [Hk Ho].
  destruct c as [o | p | p | name | name object]; simpl.
  - unfold ADD_OBSERVER; rewrite addObserver_eq; simpl in *.
    destruct (observerType o) eqn:E; simpl; split; auto;
      apply Forall_app; split; auto; constructor; auto.
    + apply constructed_key_type; assumption.
    + apply constructed_object_type; assumption.
  - unfold REMOVE_OBSERVER; rewrite removeObserver_eq; simpl.
    split; apply Forall_not_owned_by; assumption.
  - rewrite containsObserver_eq; simpl; auto.
  - unfold POST_NOTIFICATION; rewrite postNotification_center; auto.
  - unfold POST_NOTIFICATION_WITH_OBJECT.
    rewrite postNotificationWithObject_center; auto.
Qed.

(** X7. The vectors stay sorted by class.  Starting from the constructed
    center, after any sequence of calls of [ADD_OBSERVER],
    [REMOVE_OBSERVER], [containsObserver], [POST_NOTIFICATION] and
    [POST_NOTIFICATION_WITH_OBJECT] that registers observers built by the
    class constructors, whether the posts returned or threw,
    [_keyObservers] holds [KeyObserver]s only and [_objectObservers] holds
    [ObjectObserver]s only. *)
Theorem vectors_stay_sorted_by_class (calls : list call) (w : World)
    (t : list event) :
  Forall registers_constructed calls ->
  sorted_by_class
    (center (perform_all calls
               {| center := NotificationCenter_constructor;
                  world := w; trace := t |})).
Proof.
  intros H.
  assert (G : forall m, sorted_by_class (center m) ->
                        sorted_by_class (center (perform_all calls m))).
  { induction H as [|c rest Hc Hrest IH]; intros m Hm; [exact Hm|].
    simpl; apply IH, perform_keeps_sorted; assumption. }
  apply G; split; constructor.
Qed.

Lemma owned_by_not_owned_by (observer : pointer) observers :
  owned_by observer (not_owned_by observer observers) = []
  /\ not_owned_by observer (not_owned_by observer observers)
     = not_owned_by observer observers.
Proof.
  apply owned_by_none; intros o Ho E.
  unfold not_owned_by in Ho; apply filter_In in Ho as [_ Ho].
  unfold Observer_containsObserver in Ho.
  rewrite E, Z.eqb_refl in Ho; discriminate Ho.
Qed.

(** X8. Removing an owner twice is removing it once: the second
    [removeObserver] of the same pointer returns and changes nothing, in
    particular it deletes no observer a second time. *)
Theorem removeObserver_twice_is_once (observer : pointer) m :
  removeObserver observer (fst (removeObserver observer m))
  = (fst (removeObserver observer m), Return tt).
Proof.
  rewrite (removeObserver_eq observer (fst (removeObserver observer m))).
  rewrite removeObserver_eq; simpl.
  destruct (owned_by_not_owned_by observer (_keyObservers (center m)))
    as [-> ->].
  destruct (owned_by_not_owned_by observer (_objectObservers (center m)))
    as [-> ->].
  simpl; rewrite app_nil_r; reflexivity.
Qed.

Lemma not_owned_by_comm (p q : pointer) observers :
  not_owned_by q (not_owned_by p observers)
  = not_owned_by p (not_owned_by q observers).
Proof.
  unfold not_owned_by; induction observers as [|o rest IH]; [reflexivity|].
  simpl.
  destruct (Observer_containsObserver o p) eqn:Ep;
    destruct (Observer_containsObserver o q) eqn:Eq; simpl;
    rewrite ?Ep, ?Eq; simpl; rewrite IH; reflexivity.
Qed.

(** X9. The order in which two owners are removed does not matter for
    what stays registered nor for the world: both orders end in the same
    center and world. *)
Theorem removeObserver_order_is_irrelevant (p q : pointer) m :
  center (fst (removeObserver q (fst (removeObserver p m))))
  = center (fst (removeObserver p (fst (removeObserver q m))))
  /\ world (fst (removeObserver q (fst (removeObserver p m))))
     = world (fst (removeObserver p (fst (removeObserver q m)))).
Proof.
  rewrite (removeObserver_eq q (fst (removeObserver p m))).
  rewrite (removeObserver_eq p (fst (removeObserver q m))).
  rewrite !removeObserver_eq; simpl.
  rewrite (not_owned_by_comm p q (_keyObservers (center m))).
  rewrite (not_owned_by_comm p q (_objectObservers (center m))).
  split; reflexivity.
Qed.

Lemma contains_loop_false (observer : pointer) observers :
  contains_loop observers observer = false ->
  forall o, In o observers -> _observer o <> observer.
Proof.
  intros H o Ho E.
  assert (T : contains_loop observers observer = true)
    by (apply contains_loop_true; exists o; auto).
  rewrite H in T; discriminate T.
Qed.

Lemma owned_by_app (observer : pointer) (l1 l2 : list Observer) :
  owned_by observer (l1 ++ l2)
  = owned_by observer l1 ++ owned_by observer l2.
Proof. apply filter_app. Qed.

Lemma owned_by_owner o : owned_by (_observer o) [o] = [o].
Proof.
  unfold owned_by, Observer_containsObserver; simpl.
  rewrite Z.eqb_refl; reflexivity.
Qed.

(** X10. Round trip of a registration.  When [containsObserver] answers
    false for an owner, adding one observer of that owner and then
    removing the owner returns, deletes exactly that observer and leaves
    the center and the world as they were before the registration. *)
Theorem addObserver_then_removeObserver_restores o m :
  snd (containsObserver (_observer o) m) = Return false ->
  removeObserver (_observer o) (fst (addObserver o m))
  = ({| center := center m;
        world := world m;
        trace := trace m ++ [Deleted o] |},
     Return tt).
Proof.
  rewrite containsObserver_eq; simpl; intros H.
  injection H as H; apply orb_false_iff in H as [Hk Ho].
  destruct (owned_by_none _ _ (contains_loop_false _ _ Hk)) as [Ek Ek'].
  destruct (owned_by_none _ _ (contains_loop_false _ _ Ho)) as [Eo Eo'].
  rewrite removeObserver_eq, addObserver_eq; simpl.
  destruct (observerType o); simpl;
    rewrite ?not_owned_by_app, ?owned_by_app, ?not_owned_by_owner,
      ?owned_by_owner, Ek, Ek', Eo, Eo', ?app_nil_r; simpl;
    rewrite center_eta; reflexivity.
Qed.

Lemma contains_loop_app (observer : pointer) (l1 l2 : list Observer) :
  contains_loop (l1 ++ l2) observer
  = contains_loop l1 observer || contains_loop l2 observer.
Proof. rewrite !contains_loop_existsb; apply existsb_app. Qed.

(** X11. Registration is what [containsObserver] sees: after
    [addObserver(o)] it answers true for the owner of [o], and for every
    other pointer it answers as it did before. *)
Theorem containsObserver_after_addObserver o (q : pointer) m :
  snd (containsObserver (_observer o) (fst (addObserver o m))) = Return true
  /\ (q <> _observer o ->
      snd (containsObserver q (fst (addObserver o m)))
      = snd (containsObserver q m)).
Proof.
  rewrite !containsObserver_eq, addObserver_eq; simpl.
  assert (Own : contains_loop [o] (_observer o) = true)
    by (simpl; unfold Observer_containsObserver; rewrite Z.eqb_refl;
        reflexivity).
  split.
  - destruct (observerType o); simpl; rewrite contains_loop_app, Own;
      rewrite ?orb_true_r; reflexivity.
  - intros Hq.
    assert (Other : contains_loop [o] q = false).
    { simpl; unfold Observer_containsObserver.
      destruct (Z.eqb_spec q (_observer o)); [contradiction | reflexivity]. }
    destruct (observerType o); simpl; rewrite contains_loop_app, Other;
      rewrite ?orb_false_r; reflexivity.
Qed.

Lemma destructor_eq m :
  NotificationCenter_destructor m
  = (m,
     if negb (empty (_keyObservers (center m)))
        || negb (empty (_objectObservers (center m)))
     then Throw (NotificationError
                   (arg2 leak_format
                      (uint (size (_keyObservers (center m))
                             + size (_objectObservers (center m))))
                      (join
                         (map quoted_key
                            (_keyObservers (center m)
                             ++ _objectObservers (center m)))
                         ", ")))
     else Return tt).
Proof.
  unfold NotificationCenter_destructor, bind at 1, get_center at 1.
  destruct (negb (empty (_keyObservers (center m)))
            || negb (empty (_objectObservers (center m)))); [|reflexivity].
  unfold bind at 1; rewrite foreach_collect.
  unfold bind at 1; rewrite foreach_collect.
  unfold throw; simpl app; rewrite <- map_app; reflexivity.
Qed.

(** X12. The destructor returns exactly when no owner is registered any
    more.  If [containsObserver] answers false for every pointer it
    returns and leaves the machine as it was.  As soon as
    [containsObserver] answers true for one pointer it throws its
    NotificationError, with the number of stored observers (as an
    [unsigned int]) and their quoted names in the message, the machine
    again as it was.  So it returns if and only if [containsObserver] is
    false for every pointer. *)
Theorem destructor_returns_iff_no_owner_is_contained m :
  ((forall p, snd (containsObserver p m) = Return false) ->
   NotificationCenter_destructor m = (m, Return tt))
  /\ (forall p,
        snd (containsObserver p m) = Return true ->
        NotificationCenter_destructor m
        = (m,
           Throw (NotificationError
                    (arg2 leak_format
                       (uint (size (_keyObservers (center m))
                              + size (_objectObservers (center m))))
                       (join
                          (map quoted_key
                             (_keyObservers (center m)
                              ++ _objectObservers (center m)))
                          ", ")))))
  /\ (snd (NotificationCenter_destructor m) = Return tt
      <-> (forall p, snd (containsObserver p m) = Return false)).
Proof.
  assert (Empty : (forall p, snd (containsObserver p m) = Return false) ->
                  _keyObservers (center m) = []
                  /\ _objectObservers (center m) = []).
  { intros H.
    destruct (_keyObservers (center m)) as [|k ks] eqn:Ek.
    - destruct (_objectObservers (center m)) as [|o os] eqn:Eo; [auto|].
      specialize (H (_observer o)); rewrite containsObserver_eq in H.
      rewrite Ek, Eo in H; simpl in H.
      unfold Observer_containsObserver in H; rewrite Z.eqb_refl in H.
      discriminate H.
    - specialize (H (_observer k)); rewrite containsObserver_eq in H.
      rewrite Ek in H; simpl in H.
      unfold Observer_containsObserver in H; rewrite Z.eqb_refl in H.
      discriminate H. }
  assert (Full : forall p, snd (containsObserver p m) = Return true ->
                 negb (empty (_keyObservers (center m)))
                 || negb (empty (_objectObservers (center m))) = true).
  { intros p H; rewrite containsObserver_eq in H; simpl in H.
    destruct (_keyObservers (center m)) as [|k ks]; [|reflexivity].
    destruct (_objectObservers (center m)) as [|o os]; [|reflexivity].
    discriminate H. }
  rewrite destructor_eq; split; [|split].
  - intros H; destruct (Empty H) as [-> ->]; reflexivity.
  - intros p H; rewrite (Full p H); reflexivity.
  - split.
    + intros H p; rewrite containsObserver_eq; simpl.
      destruct (_keyObservers (center m)) as [|k ks];
        destruct (_objectObservers (center m)) as [|o os]; simpl in *;
        try discriminate H; reflexivity.
    + intros H; destruct (Empty H) as [-> ->]; reflexivity.
Qed.

End Properties.

(** ** Properties of the logger *)

Section LogProperties.

Context {collaborators : LogCollaborators}.

Implicit Types (this : Log) (out : output) (now : ptime).

Lemma Log_constructor_off out :
  switches_off (toLowerCase (environmentVariable BUMP_LOG_ENABLED)) = true ->
  Log_constructor out
  = ({| _isEnabled := false;
        _logLevel := WARNING_LVL;
        _isDateTimeFormatEnabled := false;
        _dateTimeFormat := DATE_TIME_DEFAULT;
        _logStream := std_cout |},
     cout_line out ["[bump] Setting LOG_ENABLED to NO"]).
Proof.
  unfold switches_off, Log_constructor; intros H; rewrite H; reflexivity.
Qed.

(** X13. A logger switched off through [BUMP_LOG_ENABLED] (the value
    [no], [false], [nope] or [disable] in any letter case) is built by the
    early return: [BUMP_LOG_LEVEL] and [BUMP_LOG_FILE] are not read.  No
    level is enabled, one line is printed, and a later
    [setIsLogEnabled(true)] gives a logger at [WARNING_LVL] on
    [std::cout], whatever the other two variables hold. *)
Theorem Log_constructor_switched_off_ignores_level_and_file out :
  switches_off (toLowerCase (environmentVariable BUMP_LOG_ENABLED)) = true ->
  (forall l, isLogLevelEnabled l (fst (Log_constructor out)) = false)
  /\ logLevel (setIsLogEnabled true (fst (Log_constructor out)))
     = WARNING_LVL
  /\ _logStream (setIsLogEnabled true (fst (Log_constructor out)))
     = std_cout
  /\ snd (Log_constructor out)
     = cout_line out ["[bump] Setting LOG_ENABLED to NO"].
Proof.
  intros H; rewrite (Log_constructor_off out H); simpl; auto.
Qed.

Lemma setLogFile_settings (filepath : string) this :
  _isEnabled (fst (setLogFile filepath this)) = _isEnabled this
  /\ _logLevel (fst (setLogFile filepath this)) = _logLevel this
  /\ _isDateTimeFormatEnabled (fst (setLogFile filepath this))
     = _isDateTimeFormatEnabled this
  /\ _dateTimeFormat (fst (setLogFile filepath this)) = _dateTimeFormat this.
Proof.
  unfold setLogFile; destruct (ofstream_opens filepath); simpl; auto.
Qed.

(** X14. A logger that is not switched off is enabled, without date and
    time, and its level is the one [BUMP_LOG_LEVEL] names exactly
    ([ALWAYS_LVL] ... [DEBUG_LVL], in capitals); any other value, the
    empty one included, leaves [WARNING_LVL].  What [BUMP_LOG_FILE] holds,
    and whether that file opens, does not change any of this. *)
Theorem Log_constructor_level_is_the_named_one_or_WARNING out :
  switches_off (toLowerCase (environmentVariable BUMP_LOG_ENABLED)) = false ->
  isLogEnabled (fst (Log_constructor out)) = true
  /\ logLevel (fst (Log_constructor out))
     = match level_named (environmentVariable BUMP_LOG_LEVEL) with
       | Some l => l
       | None => WARNING_LVL
       end
  /\ isDateTimeFormattingEnabled (fst (Log_constructor out)) = false
  /\ dateTimeFormat (fst (Log_constructor out)) = DATE_TIME_DEFAULT.
Proof.
  unfold switches_off, Log_constructor, level_named, isLogEnabled, logLevel,
    isDateTimeFormattingEnabled, dateTimeFormat.
  intros H; rewrite H.
  destruct (environmentVariable BUMP_LOG_LEVEL =? "ALWAYS_LVL");
    [|destruct (environmentVariable BUMP_LOG_LEVEL =? "ERROR_LVL");
      [|destruct (environmentVariable BUMP_LOG_LEVEL =? "WARNING_LVL");
        [|destruct (environmentVariable BUMP_LOG_LEVEL =? "INFO_LVL");
          [|destruct (environmentVariable BUMP_LOG_LEVEL =? "DEBUG_LVL");
            [|destruct (String_empty
                          (environmentVariable BUMP_LOG_LEVEL))]]]]];
    simpl;
    (destruct (String_empty (environmentVariable BUMP_LOG_FILE)); simpl;
     [auto|]);
    (destruct (environmentVariable BUMP_LOG_FILE =? "stderr"); simpl;
     [auto|]);
    (destruct (environmentVariable BUMP_LOG_FILE =? "stdout"); simpl;
     [auto|]);
    unfold setLogFile;
    destruct (ofstream_opens (environmentVariable BUMP_LOG_FILE)); simpl;
    auto.
Qed.

Lemma Log_constructor_stream out :
  not_a_failed_file (_logStream (fst (Log_constructor out))).
Proof.
  unfold Log_constructor.
  destruct ((_ =? "no") || _ || _ || _); [exact I|].
  destruct (environmentVariable BUMP_LOG_LEVEL =? "ALWAYS_LVL");
    [|destruct (environmentVariable BUMP_LOG_LEVEL =? "ERROR_LVL");
      [|destruct (environmentVariable BUMP_LOG_LEVEL =? "WARNING_LVL");
        [|destruct (environmentVariable BUMP_LOG_LEVEL =? "INFO_LVL");
          [|destruct (environmentVariable BUMP_LOG_LEVEL =? "DEBUG_LVL");
            [|destruct (String_empty
                          (environmentVariable BUMP_LOG_LEVEL))]]]]];
    simpl;
    (destruct (String_empty (environmentVariable BUMP_LOG_FILE)); simpl;
     [exact I|]);
    (destruct (environmentVariable BUMP_LOG_FILE =? "stderr"); simpl;
     [exact I|]);
    (destruct (environmentVariable BUMP_LOG_FILE =? "stdout"); simpl;
     [exact I|]);
    unfold setLogFile;
    destruct (ofstream_opens (environmentVariable BUMP_LOG_FILE)) eqn:E;
    simpl; auto.
Qed.

(** A call that hands the logger no file of the caller's that failed to
    open. *)
Definition hands_in_no_failed_file (c : log_call) : Prop :=
  match c with
  | call_setLogStream stream => not_a_failed_file stream
  | _ => True
  end.

Lemma log_perform_stream (c : log_call) (state : Log * output) :
  hands_in_no_failed_file c ->
  not_a_failed_file (_logStream (fst state)) ->
  not_a_failed_file (_logStream (fst (log_perform c state))).
Proof.
  destruct state as [this out].
  destruct c as [b | l | f | b | path | stream | prefix now]; simpl; auto.
  unfold setLogFile; destruct (ofstream_opens path) eqn:E; simpl; auto.
Qed.

(** X15. The logger never points to a file that failed to open.  After
    the constructor, whatever the environment holds, and after any
    sequence of calls of its setters, [setLogFile] and [logStream], its
    stream is [std::cout], [std::cerr], a stream of the caller or a file
    that opened.  A path that cannot be opened leaves the stream the
    logger had: [setLogFile] then returns false and changes nothing of
    the logger, and the constructor stays on [std::cout] when the file
    [BUMP_LOG_FILE] names does not open; a path that opens makes
    [setLogFile] return true with that file as the stream. *)
Theorem log_stream_is_never_a_failed_file (calls : list log_call) out this
    (filepath : string) :
  (Forall hands_in_no_failed_file calls ->
   not_a_failed_file
     (_logStream (fst (log_perform_all calls (Log_constructor out)))))
  /\ (ofstream_opens filepath = false ->
      setLogFile filepath this = (this, false))
  /\ (ofstream_opens filepath = true ->
      setLogFile filepath this
      = ({| _isEnabled := _isEnabled this;
            _logLevel := _logLevel this;
            _isDateTimeFormatEnabled := _isDateTimeFormatEnabled this;
            _dateTimeFormat := _dateTimeFormat this;
            _logStream := ofstream filepath |},
         true))
  /\ (ofstream_opens (environmentVariable BUMP_LOG_FILE) = false ->
      environmentVariable BUMP_LOG_FILE <> "stderr" ->
      _logStream (fst (Log_constructor out)) = std_cout).
Proof.
  split; [|split; [|split]].
  - intros H.
    assert (G : forall state,
               not_a_failed_file (_logStream (fst state)) ->
               not_a_failed_file
                 (_logStream (fst (log_perform_all calls state)))).
    { induction H as [|c rest Hc Hrest IH]; intros state Hs; [exact Hs|].
      simpl; apply IH, log_perform_stream; assumption. }
    apply G, Log_constructor_stream.
  - intros H; unfold setLogFile; rewrite H; reflexivity.
  - intros H; unfold setLogFile; rewrite H; reflexivity.
  - intros Hopen Hne; unfold Log_constructor.
    destruct ((_ =? "no") || _ || _ || _); [reflexivity|].
    assert (E : (environmentVariable BUMP_LOG_FILE =? "stderr") = false)
      by (apply String.eqb_neq; exact Hne).
    destruct (environmentVariable BUMP_LOG_LEVEL =? "ALWAYS_LVL");
      [|destruct (environmentVariable BUMP_LOG_LEVEL =? "ERROR_LVL");
        [|destruct (environmentVariable BUMP_LOG_LEVEL =? "WARNING_LVL");
          [|destruct (environmentVariable BUMP_LOG_LEVEL =? "INFO_LVL");
            [|destruct (environmentVariable BUMP_LOG_LEVEL =? "DEBUG_LVL");
              [|destruct (String_empty
                            (environmentVariable BUMP_LOG_LEVEL))]]]]];
      simpl;
      (destruct (String_empty (environmentVariable BUMP_LOG_FILE)); simpl;
       [reflexivity|]);
      rewrite E; simpl;
      (destruct (environmentVariable BUMP_LOG_FILE =? "stdout"); simpl;
       [reflexivity|]);
      unfold setLogFile; rewrite Hopen; reflexivity.
Qed.

(** X16. Levels are enabled downwards from the logger's level: a disabled
    logger enables no level; a level that is enabled enables every level
    of a lower or equal value; and the logger's own level is enabled
    exactly when the logger is. *)
Theorem isLogLevelEnabled_is_downward_closed this :
  (isLogEnabled this = false ->
   forall l, isLogLevelEnabled l this = false)
  /\ (forall l l',
        isLogLevelEnabled l this = true ->
        (level_value l' <= level_value l)%Z ->
        isLogLevelEnabled l' this = true)
  /\ isLogLevelEnabled (logLevel this) this = isLogEnabled this.
Proof.
  unfold isLogLevelEnabled, isLogEnabled, logLevel; split; [|split].
  - intros H l; rewrite H; reflexivity.
  - intros l l' H Hle; destruct (_isEnabled this); simpl in *;
      [|discriminate H].
    apply Z.leb_le in H; apply Z.leb_le; lia.
  - destruct (_isEnabled this); simpl; [apply Z.leb_refl | reflexivity].
Qed.

Lemma ostream_eqb_refl (s : ostream) : ostream_eqb s s = true.
Proof.
  destruct s; simpl; auto using String.eqb_refl, Z.eqb_refl.
Qed.

Lemma append_assoc (a b c : string) :
  ((a ++ b) ++ c)%string = (a ++ b ++ c)%string.
Proof. induction a; simpl; congruence. Qed.

Lemma text_on_app (s : ostream) (out1 out2 : output) :
  text_on s (out1 ++ out2) = (text_on s out1 ++ text_on s out2)%string.
Proof.
  induction out1 as [|[s' text] rest IH]; simpl; [reflexivity|].
  destruct (ostream_eqb s' s); rewrite IH; [|reflexivity].
  symmetry; apply append_assoc.
Qed.

Lemma append_empty_r (s : string) : (s ++ "")%string = s.
Proof. induction s; simpl; congruence. Qed.

(** X17. [logStream(prefix)] writes to the logger's current stream only
    and returns that stream: the text of every other stream is as before,
    and the current stream gains the time followed by one space when date
    and time formatting is on, then the prefix; with formatting off and
    an empty prefix nothing is written at all. *)
Theorem logStream_writes_to_the_current_stream_only (prefix : string) now
    this out (s : ostream) :
  snd (logStream prefix now this out) = _logStream this
  /\ text_on s (fst (logStream prefix now this out))
     = (text_on s out
        ++ if ostream_eqb (_logStream this) s
           then (if _isDateTimeFormatEnabled this
                 then _convertTimeToString this now ++ " "
                 else "")
                ++ prefix
           else "")%string
  /\ (_isDateTimeFormatEnabled this = false -> prefix = EmptyString ->
      fst (logStream prefix now this out) = out).
Proof.
  unfold logStream; split; [reflexivity|]; split.
  - destruct (_isDateTimeFormatEnabled this);
      destruct prefix as [|c prefix]; simpl;
      rewrite ?text_on_app; simpl;
      destruct (ostream_eqb (_logStream this) s); simpl;
      rewrite ?append_empty_r, ?append_assoc; simpl;
      rewrite ?append_empty_r; reflexivity.
  - intros -> ->; reflexivity.
Qed.

Lemma length_append (a b : string) :
  String.length (a ++ b) = String.length a + String.length b.
Proof. induction a; simpl; congruence. Qed.

Lemma append_zeros_one (text : string) :
  String.length text = 1 ->
  append_zeros_while_short text = (text ++ "0")%string.
Proof.
  intros H; unfold append_zeros_while_short; rewrite H; simpl.
  rewrite H; reflexivity.
Qed.

Lemma append_zeros_long (text : string) :
  2 <= String.length text -> append_zeros_while_short text = text.
Proof.
  intros H; unfold append_zeros_while_short.
  replace (2 - String.length text) with 0 by lia; reflexivity.
Qed.

(** The loop leaves by its condition: the rounds allowed were enough. *)
Lemma append_zeros_exits (text : string) :
  Nat.ltb (String.length (append_zeros_while_short text)) 2 = false.
Proof.
  destruct (String.length text) as [|[|n]] eqn:E.
  - destruct text; [reflexivity | discriminate E].
  - rewrite append_zeros_one, length_append, E by exact E; reflexivity.
  - rewrite append_zeros_long, E by lia; reflexivity.
Qed.

(** X18. Minutes and seconds are padded on the right: a minute (or
    second) whose text is one character long is shown with a ["0"]
    appended, so the time string of that minute is the time string of the
    minute whose text is that character followed by ["0"]; minute 5 reads
    as minute 50. *)
Theorem single_digit_minutes_and_seconds_read_as_tens this now (a b : Z) :
  String.length (String_of_long a) = 1 ->
  String_of_long b = (String_of_long a ++ "0")%string ->
  _convertTimeToString this (with_minutes a now)
  = _convertTimeToString this (with_minutes b now)
  /\ _convertTimeToString this (with_seconds a now)
     = _convertTimeToString this (with_seconds b now).
Proof.
  intros Ha Hb.
  assert (P : append_zeros_while_short (String_of_long a)
              = append_zeros_while_short (String_of_long b)).
  { rewrite (append_zeros_one _ Ha), Hb, append_zeros_long; [reflexivity|].
    rewrite length_append, Ha; simpl; lia. }
  unfold _convertTimeToString, with_minutes, with_seconds; simpl.
  rewrite P; split; reflexivity.
Qed.

(** X19. Without an AM/PM marker the afternoon is shown as the morning:
    in the formats [DATE_TIME_DEFAULT] and [TIME_DEFAULT] an hour [h]
    above 12 gives the time string of the hour [h - 12] (the string
    helpers converting these two hours to text and back faithfully). *)
Theorem afternoon_hours_read_as_morning_hours this now (h : Z) :
  time_of_day_hours now = h ->
  (12 < h <= 24)%Z ->
  toInt (String_of_long h) = h ->
  toInt (String_of_long (h - 12)) = (h - 12)%Z ->
  String_of_int (h - 12) = String_of_long (h - 12) ->
  _dateTimeFormat this = DATE_TIME_DEFAULT
  \/ _dateTimeFormat this = TIME_DEFAULT ->
  _convertTimeToString this now
  = _convertTimeToString this (with_hours (h - 12) now).
Proof.
  intros Hh Hrange Hround Hround' Hint Hformat.
  unfold _convertTimeToString, with_hours; simpl.
  rewrite Hh, Hround, Hround', Hint.
  replace (h >? 12)%Z with true by (symmetry; apply Z.gtb_lt; lia).
  replace (h - 12 >? 12)%Z with false
    by (symmetry; rewrite Z.gtb_ltb; apply Z.ltb_ge; lia).
  destruct Hformat as [-> | ->]; reflexivity.
Qed.

(** X20. The AM/PM marker changes between hour 12 and hour 13: in the
    format [TIME_WITH_AM_PM] the hours up to 12, noon included, are shown
    as they are with ["AM"], and the hours from 13 on are shown less 12
    with ["PM"] (the string helpers converting the hour to text and back
    faithfully). *)
Theorem AM_PM_marker_changes_after_hour_12 this now :
  _dateTimeFormat this = TIME_WITH_AM_PM ->
  toInt (String_of_long (time_of_day_hours now)) = time_of_day_hours now ->
  ((time_of_day_hours now <= 12)%Z ->
   _convertTimeToString this now
   = arg_strings "%1:%2:%3 %4"
       [String_of_long (time_of_day_hours now);
        append_zeros_while_short
          (String_of_long (time_of_day_minutes now));
        append_zeros_while_short
          (String_of_long (time_of_day_seconds now));
        "AM"])
  /\ ((13 <= time_of_day_hours now)%Z ->
      _convertTimeToString this now
      = arg_strings "%1:%2:%3 %4"
          [String_of_int (time_of_day_hours now - 12);
           append_zeros_while_short
             (String_of_long (time_of_day_minutes now));
           append_zeros_while_short
             (String_of_long (time_of_day_seconds now));
           "PM"]).
Proof.
  intros Hformat Hround; unfold _convertTimeToString.
  rewrite Hformat, Hround; split; intros H.
  - replace (time_of_day_hours now <? 13)%Z with true
      by (symmetry; apply Z.ltb_lt; lia).
    replace (time_of_day_hours now >? 12)%Z with false
      by (symmetry; rewrite Z.gtb_ltb; apply Z.ltb_ge; lia).
    reflexivity.
  - replace (time_of_day_hours now <? 13)%Z with false
      by (symmetry; apply Z.ltb_ge; lia).
    replace (time_of_day_hours now >? 12)%Z with true
      by (symmetry; apply Z.gtb_lt; lia).
    reflexivity.
Qed.

End LogProperties.

#[local] Existing Instance placeholder_format.

(** Posting ["N"] on [busy] runs the two callbacks registered for it, in
    registration order, and counts them. *)
Example post_N_on_busy :
  postNotification "N" busy
  = ({| center := center busy;
        world := ["alice.onN"; "bob.onN"];
        trace := [Notified alice_on_N; Called alice_on_N None;
                  Notified bob_on_N; Called bob_on_N None] |},
     Return 2%Z).
Proof. reflexivity. Qed.

(** Posting an [int] for ["N"] on [busy] stops at the observer that
    expects a [Widget*]. *)
Example post_int_on_busy :
  postNotificationWithObject "N" forty_two busy
  = ({| center := center busy;
        world := ["alice.onValue"];
        trace := [Notified alice_takes_int;
                  Called alice_takes_int (Some 42%Z);
                  Notified bob_takes_Widget_pointer] |},
     Throw (NotificationError
              ("Notification object for " ++ dquote ++ "N" ++ dquote
               ++ " has invalid type for bound callback.")%string)).
Proof. reflexivity. Qed.

Example destructor_on_busy :
  snd (NotificationCenter_destructor busy)
  = Throw (NotificationError
             ("bump::NotificationCenter has 6 observers left with keys: "
              ++ dquote ++ "N" ++ dquote ++ ", "
              ++ dquote ++ "Quit" ++ dquote ++ ", "
              ++ dquote ++ "N" ++ dquote ++ ", "
              ++ dquote ++ "N" ++ dquote ++ ", "
              ++ dquote ++ "N" ++ dquote ++ ", "
              ++ dquote ++ "N" ++ dquote)%string).
Proof. reflexivity. Qed.

(** Removing [alice] from [busy] deletes her three observers, whatever
    their names, and keeps [bob]'s in order. *)
Example remove_alice_from_busy :
  removeObserver alice busy
  = ({| center :=
          {| _keyObservers := [bob_on_N];
             _objectObservers := [bob_takes_Widget_pointer; bob_takes_int] |};
        world := [];
        trace := [Deleted alice_on_N; Deleted alice_on_Quit;
                  Deleted alice_takes_int] |},
     Return tt).
Proof. reflexivity. Qed.

Example busy_contains_bob_not_carol :
  snd (containsObserver bob busy) = Return true
  /\ snd (containsObserver carol busy) = Return false.
Proof. split; reflexivity. Qed.

Ltac each_observer H :=
  repeat (destruct H as [<- | H]); try contradiction.

Ltac callbacks_return_here :=
  first [ intros w; reflexivity
        | split; intros g Hg v w; inversion Hg; reflexivity ].

Ltac accepts_here :=
  split; [constructor | split; [reflexivity | callbacks_return_here]].

(** ** The properties on the concrete program *)

Lemma postNotification_notifies_matching_in_order_on_busy :
  exists m' t,
    postNotification "N" busy = (m', Return 2%Z)
    /\ center m' = center busy
    /\ trace m' = trace busy ++ t
    /\ notified t = [alice_on_N; bob_on_N]
    /\ called t = [alice_on_N; bob_on_N]
    /\ deleted t = [].
Proof.
  apply (postNotification_notifies_matching_in_order "N" busy).
  - intros o Ho; change (In o [alice_on_N; bob_on_N]) in Ho.
    each_observer Ho; callbacks_return_here.
  - reflexivity.
Defined.

Lemma postNotificationWithObject_type_mismatch_aborts_on_busy :
  exists m' t,
    postNotificationWithObject "N" forty_two busy
    = (m', Throw (NotificationError (arg invalid_type_format "N")))
    /\ center m' = center busy
    /\ trace m' = trace busy ++ t
    /\ notified t = [alice_takes_int; bob_takes_Widget_pointer]
    /\ called t = [alice_takes_int].
Proof.
  apply (postNotificationWithObject_type_mismatch_aborts "N" forty_two busy
           [alice_takes_int] [bob_takes_int] bob_takes_Widget_pointer
           (pointer_to Widget)).
  - reflexivity.
  - reflexivity.
  - reflexivity.
  - discriminate.
  - intros o Ho; change (In o [alice_takes_int]) in Ho.
    each_observer Ho; accepts_here.
Defined.

Lemma destructor_reports_leaked_observers_on_fresh_and_busy :
  NotificationCenter_destructor fresh = (fresh, Return tt)
  /\ NotificationCenter_destructor busy
     = (busy,
        Throw (NotificationError
                 (arg2 leak_format 6
                    (join (map quoted_key
                             [alice_on_N; alice_on_Quit; bob_on_N;
                              alice_takes_int; bob_takes_Widget_pointer;
                              bob_takes_int])
                       ", ")))).
Proof.
  split.
  - apply (proj1 (destructor_reports_leaked_observers fresh)).
    split; reflexivity.
  - apply (proj2 (destructor_reports_leaked_observers busy)).
    + left; discriminate.
    + reflexivity.
Defined.

Lemma removeObserver_removes_the_owner_everywhere_on_busy :
  (exists m' t,
     removeObserver alice busy = (m', Return tt)
     /\ _keyObservers (center m') = [bob_on_N]
     /\ _objectObservers (center m')
        = [bob_takes_Widget_pointer; bob_takes_int]
     /\ trace m' = trace busy ++ t
     /\ deleted t = [alice_on_N; alice_on_Quit; alice_takes_int]
     /\ containsObserver alice m' = (m', Return false))
  /\ removeObserver carol busy = (busy, Return tt).
Proof.
  split.
  - destruct (removeObserver_removes_the_owner_everywhere alice busy)
      as (m' & t & E & Hk & Ho & _ & _ & _ & Ht & Hd & _ & _ & _ & Hc & _).
    exists m', t; repeat split; assumption.
  - destruct (removeObserver_removes_the_owner_everywhere carol busy)
      as (m' & t & E & _ & _ & _ & _ & _ & _ & _ & _ & _ & _ & _ & Hsame).
    rewrite E, Hsame; [reflexivity|].
    intros o Ho; simpl in Ho; each_observer Ho; discriminate.
Defined.

(** Three object observers are registered for ["N"]; posting an [int]
    ends in the NotificationError of the second, which expects a
    [Widget*]: no count is returned, in particular not 3. *)
Lemma postNotificationWithObject_mismatch_returns_no_count :
  matching "N" (_objectObservers (center busy))
  = [alice_takes_int; bob_takes_Widget_pointer; bob_takes_int]
  /\ expected_type bob_takes_Widget_pointer = Some (pointer_to Widget)
  /\ any_type forty_two = int
  /\ snd (postNotificationWithObject "N" forty_two busy)
     = Throw (NotificationError (arg invalid_type_format "N"))
  /\ snd (postNotificationWithObject "N" forty_two busy) <> Return 3%Z.
Proof.
  repeat split; discriminate.
Qed.

Lemma post_returns_a_count_only_when_no_notify_throws_on_examples :
  (exists m', postNotification "N" busy = (m', Return 2%Z))
  /\ (exists m',
        postNotificationWithObject "N" forty_two agreeable
        = (m', Return 2%Z))
  /\ (exists m',
        postNotification "N" faulty
        = (m', Throw (user_exception "bob.onN failed"))
        /\ world m' = ["alice.onN"] /\ center m' = center faulty)
  /\ (exists m',
        postNotificationWithObject "N" forty_two busy
        = (m', Throw (NotificationError (arg invalid_type_format "N"))))
  /\ (exists m',
        postNotificationWithObject "N" forty_two faulty_objects
        = (m', Throw (user_exception "bob.onValue failed"))
        /\ world m' = ["alice.onValue"]
        /\ center m' = center faulty_objects).
Proof.
  split; [|split; [|split; [|split]]].
  - apply (proj1 (post_returns_a_count_only_when_no_notify_throws
                    "N" forty_two busy)).
    + intros o Ho; change (In o [alice_on_N; bob_on_N]) in Ho.
      each_observer Ho; callbacks_return_here.
    + reflexivity.
  - apply (proj1 (proj2 (post_returns_a_count_only_when_no_notify_throws
                           "N" forty_two agreeable))).
    + intros o Ho; change (In o [alice_takes_int; bob_takes_int]) in Ho.
      each_observer Ho; accepts_here.
    + reflexivity.
  - apply (proj1 (proj2 (proj2
             (post_returns_a_count_only_when_no_notify_throws
                "N" forty_two faulty)))
             [alice_on_N] bob_fails_on_N [alice_on_N_again]
             (throws "bob.onN failed") ["alice.onN"]
             (user_exception "bob.onN failed")).
    + reflexivity.
    + reflexivity.
    + reflexivity.
    + intros o Ho; change (In o [alice_on_N]) in Ho.
      each_observer Ho; callbacks_return_here.
    + reflexivity.
  - apply (proj1 (proj2 (proj2 (proj2
             (post_returns_a_count_only_when_no_notify_throws
                "N" forty_two busy))))
             [alice_takes_int] bob_takes_Widget_pointer [bob_takes_int]
             (pointer_to Widget)).
    + reflexivity.
    + reflexivity.
    + reflexivity.
    + discriminate.
    + intros o Ho; change (In o [alice_takes_int]) in Ho.
      each_observer Ho; accepts_here.
  - apply (proj2 (proj2 (proj2 (proj2
             (post_returns_a_count_only_when_no_notify_throws
                "N" forty_two faulty_objects))))
             [alice_takes_int] bob_fails_on_int [bob_takes_int]
             (fun _ => throws "bob.onValue failed") ["alice.onValue"]
             (user_exception "bob.onValue failed")).
    + reflexivity.
    + reflexivity.
    + reflexivity.
    + reflexivity.
    + intros o Ho; change (In o [alice_takes_int]) in Ho.
      each_observer Ho; accepts_here.
    + reflexivity.
Defined.

Lemma duplicate_registrations_are_kept_and_both_notified_on_busy :
  exists m2,
    bind (addObserver alice_on_N) (fun _ => addObserver alice_on_N_again) busy
    = (m2, Return tt)
    /\ _keyObservers (center m2)
       = [alice_on_N; alice_on_Quit; bob_on_N; alice_on_N; alice_on_N_again]
    /\ exists m3 t,
         postNotification "N" m2 = (m3, Return 4%Z)
         /\ trace m3 = trace m2 ++ t
         /\ notified t
            = [alice_on_N; bob_on_N; alice_on_N; alice_on_N_again].
Proof.
  destruct (duplicate_registrations_are_kept_and_both_notified
              alice_on_N alice_on_N_again "N" forty_two busy
              eq_refl eq_refl eq_refl)
    as (m2 & E & _ & _ & Hkey & _ & Hpost & _).
  exists m2; split; [exact E|]; split; [exact Hkey|].
  apply (Hpost eq_refl eq_refl); rewrite Hkey.
  - intros o Ho.
    change (In o [alice_on_N; bob_on_N; alice_on_N; alice_on_N_again]) in Ho.
    each_observer Ho; callbacks_return_here.
  - reflexivity.
Defined.

Lemma register_post_remove_post_counts_zero_on_quiet :
  postNotification "N"
    (fst (removeObserver alice
            (fst (postNotification "N" (fst (addObserver alice_on_N quiet))))))
  = ({| center := {| _keyObservers := []; _objectObservers := [] |};
        world := ["alice.onN"];
        trace := [Notified alice_on_N; Called alice_on_N None;
                  Deleted alice_on_Quit; Deleted alice_on_N] |},
     Return 0%Z)
  /\ postNotificationWithObject "N" forty_two
       (fst (removeObserver bob
               (fst (postNotificationWithObject "N" forty_two
                       (fst (addObserver bob_takes_Widget_pointer quiet))))))
     = ({| center := center quiet;
           world := [];
           trace := [Notified bob_takes_Widget_pointer;
                     Deleted bob_takes_Widget_pointer] |},
        Return 0%Z).
Proof.
  split.
  - apply (proj1 (register_post_remove_post_counts_zero
                    alice_on_N "N" forty_two quiet
                    eq_refl eq_refl eq_refl)).
  - apply (proj2 (register_post_remove_post_counts_zero
                    bob_takes_Widget_pointer "N" forty_two quiet
                    eq_refl eq_refl eq_refl)).
Defined.

Lemma postNotification_raises_only_what_callbacks_raise_on_examples :
  (exists m' count, postNotification "N" busy = (m', Return count))
  /\ (exists o f w,
        In o (matching "N" (_keyObservers (center faulty)))
        /\ dynamic_class o = IsKeyObserver f
        /\ snd (f w) = Some (user_exception "bob.onN failed")).
Proof.
  split.
  - apply (proj1 (postNotification_raises_only_what_callbacks_raise
                    "N" busy)).
    intros o Ho; change (In o [alice_on_N; bob_on_N]) in Ho.
    each_observer Ho; callbacks_return_here.
  - apply (proj2 (postNotification_raises_only_what_callbacks_raise
                    "N" faulty)
             (fst (postNotification "N" faulty))).
    reflexivity.
Defined.

(** ** The further properties on the concrete program *)

Lemma posts_read_their_own_vector_only_on_busy :
  postNotification "N" busy
  = (with_center (center busy)
       (fst (postNotification "N"
               (machine_with [alice_on_N; alice_on_Quit; bob_on_N] []))),
     snd (postNotification "N"
            (machine_with [alice_on_N; alice_on_Quit; bob_on_N] [])))
  /\ postNotificationWithObject "N" forty_two busy
     = (with_center (center busy)
          (fst (postNotificationWithObject "N" forty_two
                  (machine_with []
                     [alice_takes_int; bob_takes_Widget_pointer;
                      bob_takes_int]))),
        snd (postNotificationWithObject "N" forty_two
               (machine_with []
                  [alice_takes_int; bob_takes_Widget_pointer;
                   bob_takes_int]))).
Proof.
  split.
  - apply (proj1 (posts_read_their_own_vector_only "N" forty_two busy
                    (machine_with [alice_on_N; alice_on_Quit; bob_on_N] [])
                    eq_refl eq_refl)).
    reflexivity.
  - apply (proj2 (posts_read_their_own_vector_only "N" forty_two busy
                    (machine_with []
                       [alice_takes_int; bob_takes_Widget_pointer;
                        bob_takes_int])
                    eq_refl eq_refl)).
    reflexivity.
Defined.

Lemma postNotification_runs_callbacks_in_order_on_busy :
  postNotification "N" busy
  = ({| center := center busy;
        world := ["alice.onN"; "bob.onN"];
        trace := [Notified alice_on_N; Called alice_on_N None;
                  Notified bob_on_N; Called bob_on_N None] |},
     Return 2%Z).
Proof.
  apply (postNotification_runs_callbacks_in_order "N" busy).
  intros o Ho; change (In o [alice_on_N; bob_on_N]) in Ho.
  each_observer Ho; callbacks_return_here.
Defined.

Lemma postNotification_callback_exception_aborts_on_faulty :
  exists m' t,
    postNotification "N" faulty
    = (m', Throw (user_exception "bob.onN failed"))
    /\ center m' = center faulty
    /\ trace m' = trace faulty ++ t
    /\ notified t = [alice_on_N; bob_fails_on_N]
    /\ called t = [alice_on_N; bob_fails_on_N]
    /\ deleted t = [].
Proof.
  apply (postNotification_callback_exception_aborts "N" faulty
           [alice_on_N] bob_fails_on_N [alice_on_N_again]
           (throws "bob.onN failed")).
  - reflexivity.
  - reflexivity.
  - reflexivity.
  - intros w; reflexivity.
  - intros o Ho; change (In o [alice_on_N]) in Ho.
    each_observer Ho; callbacks_return_here.
Defined.

Lemma post_without_match_is_silent_on_quiet_and_fresh :
  postNotification "N" quiet = (quiet, Return 0%Z)
  /\ postNotificationWithObject "N" forty_two fresh = (fresh, Return 0%Z).
Proof.
  split.
  - apply (proj1 (post_without_match_is_silent "N" forty_two quiet)).
    reflexivity.
  - apply (proj2 (post_without_match_is_silent "N" forty_two fresh)).
    reflexivity.
Defined.

(** An observer for [int] takes the [int] 42; the observer built from
    the same function for [int*] does not. *)
Lemma ObjectObserver_takes_exactly_its_signature_on_forty_two :
  (exists m',
     notify_object
       (ObjectObserver_value alice int (fun _ => writes "alice.onValue") "N")
       forty_two fresh
     = (m', Return tt))
  /\ ~ (exists m',
          notify_object
            (ObjectObserver_pointer alice int
               (fun _ => writes "alice.onValue") "N")
            forty_two fresh
          = (m', Return tt)).
Proof.
  destruct (ObjectObserver_takes_exactly_its_signature alice int
              (fun _ => writes "alice.onValue") "N" forty_two fresh
              (fun v w => eq_refl))
    as [Hvalue Hpointer].
  split.
  - apply Hvalue; reflexivity.
  - intros H; apply Hpointer in H; discriminate H.
Defined.

Lemma ObjectObserver_callback_exceptions_on_forty_two :
  notify_object
    (ObjectObserver_value alice int (fun _ => miscasts "alice.onValue") "N")
    forty_two fresh
  = ({| center := center fresh;
        world := ["alice.onValue"];
        trace := [Notified
                    (ObjectObserver_value alice int
                       (fun _ => miscasts "alice.onValue") "N");
                  Called
                    (ObjectObserver_value alice int
                       (fun _ => miscasts "alice.onValue") "N")
                    (Some 42%Z)] |},
     Throw (NotificationError (arg invalid_type_format "N"))).
Proof.
  apply (proj1 (ObjectObserver_callback_exceptions alice int
                  (fun _ => miscasts "alice.onValue") "N" forty_two fresh
                  ["alice.onValue"] bad_any_cast eq_refl)).
  reflexivity.
Defined.

Lemma vectors_stay_sorted_by_class_in_session :
  sorted_by_class
    (center (perform_all session
               {| center := NotificationCenter_constructor;
                  world := []; trace := [] |})).
Proof.
  apply (vectors_stay_sorted_by_class session [] []).
  unfold session; repeat constructor.
Defined.

Lemma addObserver_then_removeObserver_restores_on_bobs :
  removeObserver alice (fst (addObserver alice_takes_int bobs))
  = ({| center := center bobs;
        world := world bobs;
        trace := trace bobs ++ [Deleted alice_takes_int] |},
     Return tt).
Proof.
  apply (addObserver_then_removeObserver_restores alice_takes_int bobs).
  reflexivity.
Defined.

Lemma containsObserver_after_addObserver_on_bobs :
  snd (containsObserver alice (fst (addObserver alice_on_N bobs)))
  = Return true
  /\ snd (containsObserver carol (fst (addObserver alice_on_N bobs)))
     = snd (containsObserver carol bobs).
Proof.
  destruct (containsObserver_after_addObserver alice_on_N carol bobs)
    as [Hown Hother].
  split; [exact Hown | apply Hother; discriminate].
Defined.

(** ** The logger's properties on the desk machine *)

(** Five past three in the afternoon and seven seconds, in the default
    format. *)
Example afternoon_in_the_default_format :
  @_convertTimeToString plain_desk default_log afternoon
  = "2012-12-3 3:50:70".
Proof. reflexivity. Qed.

Example noon_with_AM_PM :
  @_convertTimeToString plain_desk
    (setDateTimeFormat TIME_WITH_AM_PM default_log) noon
  = "12:30:00 AM".
Proof. reflexivity. Qed.

Lemma Log_constructor_switched_off_on_muted_desk :
  (forall l, @isLogLevelEnabled muted_desk l
               (fst (@Log_constructor muted_desk [])) = false)
  /\ logLevel (setIsLogEnabled true (fst (@Log_constructor muted_desk [])))
     = WARNING_LVL
  /\ _logStream (setIsLogEnabled true (fst (@Log_constructor muted_desk [])))
     = std_cout
  /\ snd (@Log_constructor muted_desk [])
     = cout_line [] ["[bump] Setting LOG_ENABLED to NO"].
Proof.
  apply (@Log_constructor_switched_off_ignores_level_and_file muted_desk []).
  reflexivity.
Defined.

Lemma Log_constructor_level_on_sloppy_desk :
  isLogEnabled (fst (@Log_constructor sloppy_desk [])) = true
  /\ logLevel (fst (@Log_constructor sloppy_desk [])) = WARNING_LVL
  /\ isDateTimeFormattingEnabled (fst (@Log_constructor sloppy_desk []))
     = false
  /\ dateTimeFormat (fst (@Log_constructor sloppy_desk []))
     = DATE_TIME_DEFAULT.
Proof.
  apply (@Log_constructor_level_is_the_named_one_or_WARNING sloppy_desk []).
  reflexivity.
Defined.

Lemma log_stream_is_never_a_failed_file_in_log_session :
  @not_a_failed_file sloppy_desk
    (_logStream
       (fst (@log_perform_all sloppy_desk log_session
               (@Log_constructor sloppy_desk []))))
  /\ @setLogFile sloppy_desk "/no/such/directory/bump.log"
       (setLogStream std_cerr default_log)
     = (setLogStream std_cerr default_log, false)
  /\ @setLogFile sloppy_desk "/var/log/bump.log" default_log
     = (setLogStream (ofstream "/var/log/bump.log") default_log, true)
  /\ _logStream (fst (@Log_constructor sloppy_desk [])) = std_cout.
Proof.
  split; [|split; [|split]].
  - apply (proj1 (@log_stream_is_never_a_failed_file sloppy_desk
                    log_session [] default_log "")).
    unfold log_session; repeat constructor.
  - apply (proj1 (proj2 (@log_stream_is_never_a_failed_file sloppy_desk
                           [] [] (setLogStream std_cerr default_log)
                           "/no/such/directory/bump.log"))).
    reflexivity.
  - apply (proj1 (proj2 (proj2 (@log_stream_is_never_a_failed_file
                                  sloppy_desk [] [] default_log
                                  "/var/log/bump.log")))).
    reflexivity.
  - apply (proj2 (proj2 (proj2 (@log_stream_is_never_a_failed_file
                                  sloppy_desk [] [] default_log "")))).
    + reflexivity.
    + discriminate.
Defined.

Lemma isLogLevelEnabled_is_downward_closed_on_default_log :
  @isLogLevelEnabled plain_desk DEBUG_LVL
    (setIsLogEnabled false default_log) = false
  /\ @isLogLevelEnabled plain_desk ERROR_LVL default_log = true.
Proof.
  destruct (@isLogLevelEnabled_is_downward_closed plain_desk
              (setIsLogEnabled false default_log)) as [Hoff _].
  destruct (@isLogLevelEnabled_is_downward_closed plain_desk default_log)
    as [_ [Hdown _]].
  split.
  - apply Hoff; reflexivity.
  - apply (Hdown WARNING_LVL ERROR_LVL); [reflexivity | discriminate].
Defined.

Lemma logStream_writes_nothing_without_time_and_prefix :
  fst (@logStream plain_desk "" noon default_log [(std_cerr, "earlier")])
  = [(std_cerr, "earlier")].
Proof.
  apply (@logStream_writes_to_the_current_stream_only plain_desk "" noon
           default_log [(std_cerr, "earlier")] std_cout);
    reflexivity.
Defined.

Lemma minute_5_reads_as_minute_50 :
  @_convertTimeToString plain_desk default_log (with_minutes 5 afternoon)
  = @_convertTimeToString plain_desk default_log (with_minutes 50 afternoon)
  /\ @_convertTimeToString plain_desk default_log (with_seconds 5 afternoon)
     = @_convertTimeToString plain_desk default_log
         (with_seconds 50 afternoon).
Proof.
  apply (@single_digit_minutes_and_seconds_read_as_tens plain_desk
           default_log afternoon 5 50); reflexivity.
Defined.

Lemma hour_15_reads_as_hour_3 :
  @_convertTimeToString plain_desk default_log afternoon
  = @_convertTimeToString plain_desk default_log (with_hours 3 afternoon).
Proof.
  apply (@afternoon_hours_read_as_morning_hours plain_desk default_log
           afternoon 15).
  - reflexivity.
  - split; [reflexivity | discriminate].
  - reflexivity.
  - reflexivity.
  - reflexivity.
  - left; reflexivity.
Defined.

Lemma AM_PM_marker_at_noon_and_in_the_afternoon :
  @_convertTimeToString plain_desk
    (setDateTimeFormat TIME_WITH_AM_PM default_log) noon
  = @arg_strings plain_desk "%1:%2:%3 %4" ["12"; "30"; "00"; "AM"]
  /\ @_convertTimeToString plain_desk
       (setDateTimeFormat TIME_WITH_AM_PM default_log) afternoon
     = @arg_strings plain_desk "%1:%2:%3 %4" ["3"; "50"; "70"; "PM"].
Proof.
  split.
  - apply (proj1 (@AM_PM_marker_changes_after_hour_12 plain_desk
                    (setDateTimeFormat TIME_WITH_AM_PM default_log) noon
                    eq_refl eq_refl)).
    discriminate.
  - apply (proj2 (@AM_PM_marker_changes_after_hour_12 plain_desk
                    (setDateTimeFormat TIME_WITH_AM_PM default_log) afternoon
                    eq_refl eq_refl)).
    discriminate.
Defined.

Lemma destructor_returns_iff_no_owner_is_contained_on_fresh_and_busy :
  NotificationCenter_destructor fresh = (fresh, Return tt)
  /\ NotificationCenter_destructor busy
     = (busy,
        Throw (NotificationError
                 (arg2 leak_format 6
                    (join (map quoted_key
                             [alice_on_N; alice_on_Quit; bob_on_N;
                              alice_takes_int; bob_takes_Widget_pointer;
                              bob_takes_int])
                       ", ")))).
Proof.
  split.
  - apply (proj1 (destructor_returns_iff_no_owner_is_contained fresh)).
    intros p; reflexivity.
  - apply (proj1 (proj2 (destructor_returns_iff_no_owner_is_contained busy))
             alice).
    reflexivity.
Defined.
